(** * IoTGoMQTT: the MQTT client of the sensor-data server (src/mqtt/mqtt.go)

    A shallow embedding of package [mqtt]: the [MQTT] struct, the
    construction of the paho client options, the connect / retry-ticker
    logic, the two transport callbacks, [subscribe], [Publish] and [Stop].

    The broker transport (paho), the operating system (files, X.509
    parsing), the Go scheduler (goroutines, tickers) and the logger are
    outside the package.  Every call the package makes to them is recorded
    in a trace of [Call]s; every answer they give is an input: the file
    system and the crypto library through [Env], the broker through
    [Transport].  A nil dereference is the outcome [Panicked]. *)

From Stdlib Require Import ZArith Lia.
From stdpp Require Import base list strings pretty.

Open Scope Z_scope.
Open Scope string_scope.
Open Scope list_scope.

(** ** Outcomes of a Go call *)

Inductive GoResult (A : Type) : Type :=
| Returned (a : A)
| Panicked.
Arguments Returned {A} a.
Arguments Panicked {A}.

(** ** Collaborators declared outside the package *)

(** [[]byte] *)
Definition bytes := list Byte.byte.

(** A server-side message handler,
    [func(api *models.API, prefix, topic string, payload []byte)],
    known to this package only as a value it passes on: it is
    represented by its name. *)
Definition HandlerRef := string.

(** Modelled from the spec: [models.Topic] is declared in a package that is
    not part of the sources at hand.  A topic is a path pattern and a
    handler reference; [mqtt.go] reads [topic.Path] and [topic.Handler]. *)
Record Topic := { Path : string; Handler : HandlerRef }.

(** Modelled from the spec: [models.API], of which [mqtt.go] calls only
    [GetTopics(prefix)], the ordered topic list supplied by the server. *)
Record API := { GetTopics : string -> list Topic }.

(** Modelled from the spec: [configuration.MQTTConfig], the client
    configuration, with the fields [CreateMQTTClient] reads. *)
Record MQTTConfig := {
  Verbose : bool;
  Host : string;
  Port : Z;
  Prefix : string;
  ClientID : string;
  SubscriptionQos : Z;
  Persistent : bool;
  Order : bool;
  SSL : bool;
  Username : string;
  Password : string;
  CaCertFile : string;
  ClientCertFile : string;
  PrivateKeyFile : string;
  KeepAliveSec : Z;
  PingTimeoutSec : Z }.

(** ** crypto/tls and crypto/x509 *)

Definition X509Certificate := string.
Definition CertPool := list X509Certificate.

(** [x509.NewCertPool()] *)
Definition NewCertPool : CertPool := [].

Record TLSCertificate := {
  Certificate : list bytes;
  Leaf : option X509Certificate }.

Record TLSConfig := {
  RootCAs : option CertPool;
  Certificates : list TLSCertificate }.

(** ** paho: tokens, messages, client options *)

Record Token := { tok_Wait : bool; tok_Error : option string }.

Record ConnectToken := {
  ct_Wait : bool;
  ct_Error : option string;
  ct_SessionPresent : bool }.

Record Message := { msg_Topic : string; msg_Payload : bytes }.

(** The two methods of [*MQTT] that are handed to paho as callbacks: the
    method values [client.connectHandler] and
    [client.connectionLostHandler], each of its own function type. *)
Inductive OnConnectHandler : Type := mv_connectHandler.
Inductive ConnectionLostHandler : Type := mv_connectionLostHandler.

Record ClientOptions := {
  Servers : list string;
  opt_ClientID : string;
  opt_Username : string;
  opt_Password : string;
  CleanSession : bool;
  OrderMatters : bool;
  KeepAlive : Z;
  PingTimeout : Z;
  opt_TLSConfig : option TLSConfig;
  AutoReconnect : bool;
  OnConnect : option OnConnectHandler;
  OnConnectionLost : option ConnectionLostHandler }.

Definition SetUsername (u : string) (o : ClientOptions) : ClientOptions :=
  {| Servers := Servers o; opt_ClientID := opt_ClientID o; opt_Username := u;
     opt_Password := opt_Password o; CleanSession := CleanSession o;
     OrderMatters := OrderMatters o; KeepAlive := KeepAlive o;
     PingTimeout := PingTimeout o; opt_TLSConfig := opt_TLSConfig o;
     AutoReconnect := AutoReconnect o; OnConnect := OnConnect o;
     OnConnectionLost := OnConnectionLost o |}.

Definition SetPassword (p : string) (o : ClientOptions) : ClientOptions :=
  {| Servers := Servers o; opt_ClientID := opt_ClientID o;
     opt_Username := opt_Username o; opt_Password := p;
     CleanSession := CleanSession o; OrderMatters := OrderMatters o;
     KeepAlive := KeepAlive o; PingTimeout := PingTimeout o;
     opt_TLSConfig := opt_TLSConfig o; AutoReconnect := AutoReconnect o;
     OnConnect := OnConnect o; OnConnectionLost := OnConnectionLost o |}.

Definition AddBroker (server : string) (o : ClientOptions) : ClientOptions :=
  {| Servers := Servers o ++ [server]; opt_ClientID := opt_ClientID o;
     opt_Username := opt_Username o; opt_Password := opt_Password o;
     CleanSession := CleanSession o; OrderMatters := OrderMatters o;
     KeepAlive := KeepAlive o; PingTimeout := PingTimeout o;
     opt_TLSConfig := opt_TLSConfig o; AutoReconnect := AutoReconnect o;
     OnConnect := OnConnect o; OnConnectionLost := OnConnectionLost o |}.

Definition SetTLSConfig (t : TLSConfig) (o : ClientOptions) : ClientOptions :=
  {| Servers := Servers o; opt_ClientID := opt_ClientID o;
     opt_Username := opt_Username o; opt_Password := opt_Password o;
     CleanSession := CleanSession o; OrderMatters := OrderMatters o;
     KeepAlive := KeepAlive o; PingTimeout := PingTimeout o;
     opt_TLSConfig := Some t; AutoReconnect := AutoReconnect o;
     OnConnect := OnConnect o; OnConnectionLost := OnConnectionLost o |}.

Definition SetClientID (id : string) (o : ClientOptions) : ClientOptions :=
  {| Servers := Servers o; opt_ClientID := id;
     opt_Username := opt_Username o; opt_Password := opt_Password o;
     CleanSession := CleanSession o; OrderMatters := OrderMatters o;
     KeepAlive := KeepAlive o; PingTimeout := PingTimeout o;
     opt_TLSConfig := opt_TLSConfig o; AutoReconnect := AutoReconnect o;
     OnConnect := OnConnect o; OnConnectionLost := OnConnectionLost o |}.

Definition SetCleanSession (b : bool) (o : ClientOptions) : ClientOptions :=
  {| Servers := Servers o; opt_ClientID := opt_ClientID o;
     opt_Username := opt_Username o; opt_Password := opt_Password o;
     CleanSession := b; OrderMatters := OrderMatters o;
     KeepAlive := KeepAlive o; PingTimeout := PingTimeout o;
     opt_TLSConfig := opt_TLSConfig o; AutoReconnect := AutoReconnect o;
     OnConnect := OnConnect o; OnConnectionLost := OnConnectionLost o |}.

Definition SetOrderMatters (b : bool) (o : ClientOptions) : ClientOptions :=
  {| Servers := Servers o; opt_ClientID := opt_ClientID o;
     opt_Username := opt_Username o; opt_Password := opt_Password o;
     CleanSession := CleanSession o; OrderMatters := b;
     KeepAlive := KeepAlive o; PingTimeout := PingTimeout o;
     opt_TLSConfig := opt_TLSConfig o; AutoReconnect := AutoReconnect o;
     OnConnect := OnConnect o; OnConnectionLost := OnConnectionLost o |}.

Definition SetKeepAlive (d : Z) (o : ClientOptions) : ClientOptions :=
  {| Servers := Servers o; opt_ClientID := opt_ClientID o;
     opt_Username := opt_Username o; opt_Password := opt_Password o;
     CleanSession := CleanSession o; OrderMatters := OrderMatters o;
     KeepAlive := d; PingTimeout := PingTimeout o;
     opt_TLSConfig := opt_TLSConfig o; AutoReconnect := AutoReconnect o;
     OnConnect := OnConnect o; OnConnectionLost := OnConnectionLost o |}.

Definition SetPingTimeout (d : Z) (o : ClientOptions) : ClientOptions :=
  {| Servers := Servers o; opt_ClientID := opt_ClientID o;
     opt_Username := opt_Username o; opt_Password := opt_Password o;
     CleanSession := CleanSession o; OrderMatters := OrderMatters o;
     KeepAlive := KeepAlive o; PingTimeout := d;
     opt_TLSConfig := opt_TLSConfig o; AutoReconnect := AutoReconnect o;
     OnConnect := OnConnect o; OnConnectionLost := OnConnectionLost o |}.

Definition SetAutoReconnect (b : bool) (o : ClientOptions) : ClientOptions :=
  {| Servers := Servers o; opt_ClientID := opt_ClientID o;
     opt_Username := opt_Username o; opt_Password := opt_Password o;
     CleanSession := CleanSession o; OrderMatters := OrderMatters o;
     KeepAlive := KeepAlive o; PingTimeout := PingTimeout o;
     opt_TLSConfig := opt_TLSConfig o; AutoReconnect := b;
     OnConnect := OnConnect o; OnConnectionLost := OnConnectionLost o |}.

Definition SetConnectionLostHandler (h : ConnectionLostHandler) (o : ClientOptions)
  : ClientOptions :=
  {| Servers := Servers o; opt_ClientID := opt_ClientID o;
     opt_Username := opt_Username o; opt_Password := opt_Password o;
     CleanSession := CleanSession o; OrderMatters := OrderMatters o;
     KeepAlive := KeepAlive o; PingTimeout := PingTimeout o;
     opt_TLSConfig := opt_TLSConfig o; AutoReconnect := AutoReconnect o;
     OnConnect := OnConnect o; OnConnectionLost := Some h |}.

Definition SetOnConnectHandler (h : OnConnectHandler) (o : ClientOptions)
  : ClientOptions :=
  {| Servers := Servers o; opt_ClientID := opt_ClientID o;
     opt_Username := opt_Username o; opt_Password := opt_Password o;
     CleanSession := CleanSession o; OrderMatters := OrderMatters o;
     KeepAlive := KeepAlive o; PingTimeout := PingTimeout o;
     opt_TLSConfig := opt_TLSConfig o; AutoReconnect := AutoReconnect o;
     OnConnect := Some h; OnConnectionLost := OnConnectionLost o |}.

(** The handle [paho.NewClient(opts)] gives back.  The package never looks
    inside it; the model keeps the options pointer it was built from
    ([None] is a nil [*ClientOptions]). *)
Record PahoClient := { paho_options : option ClientOptions }.

Definition NewClient (o : option ClientOptions) : PahoClient :=
  {| paho_options := o |}.

(** What the operating system, the crypto library and paho's defaults
    answer during construction. *)
Record Env := {
  (** [ioutil.ReadFile]: the contents, or the error *)
  ReadFile : string -> bytes + string;
  (** [CertPool.AppendCertsFromPEM]: the pool afterwards, and [ok] *)
  AppendCertsFromPEM : CertPool -> bytes -> CertPool * bool;
  (** [tls.LoadX509KeyPair] *)
  LoadX509KeyPair : string -> string -> TLSCertificate + string;
  (** [x509.ParseCertificate] *)
  ParseCertificate : bytes -> X509Certificate + string;
  (** [paho.NewClientOptions()]: the library's defaults *)
  NewClientOptions : ClientOptions }.

(** ** time *)

(** [time.Second], in nanoseconds; a [time.Duration] is an [int64]. *)
Definition Second : Z := 1000000000.

Definition wrap64 (z : Z) : Z := (z + 2 ^ 63) mod 2 ^ 64 - 2 ^ 63.

(** [time.Duration(n) * time.Second] *)
Definition seconds (n : Z) : Z := wrap64 (n * Second).

(** ** The MQTT struct *)

Record MQTT := {
  host : string;
  port : Z;
  prefix : string;
  clientID : string;
  sslEnabled : bool;
  username : string;
  password : string;
  caCertPath : string;
  clientCertPath : string;
  privateKeyPath : string;
  keepAliveSec : Z;
  pingTimeoutSec : Z;
  subscriptionQos : Z;
  persistent : bool;
  order : bool;
  connecting : bool;
  disconnected : bool;
  client : option PahoClient;
  verbose : bool;
  api : option API;
  connectToken : option ConnectToken }.

Definition set_connecting (b : bool) (m : MQTT) : MQTT :=
  {| host := host m; port := port m; prefix := prefix m;
     clientID := clientID m; sslEnabled := sslEnabled m;
     username := username m; password := password m;
     caCertPath := caCertPath m; clientCertPath := clientCertPath m;
     privateKeyPath := privateKeyPath m; keepAliveSec := keepAliveSec m;
     pingTimeoutSec := pingTimeoutSec m; subscriptionQos := subscriptionQos m;
     persistent := persistent m; order := order m; connecting := b;
     disconnected := disconnected m; client := client m; verbose := verbose m;
     api := api m; connectToken := connectToken m |}.

Definition set_disconnected (b : bool) (m : MQTT) : MQTT :=
  {| host := host m; port := port m; prefix := prefix m;
     clientID := clientID m; sslEnabled := sslEnabled m;
     username := username m; password := password m;
     caCertPath := caCertPath m; clientCertPath := clientCertPath m;
     privateKeyPath := privateKeyPath m; keepAliveSec := keepAliveSec m;
     pingTimeoutSec := pingTimeoutSec m; subscriptionQos := subscriptionQos m;
     persistent := persistent m; order := order m; connecting := connecting m;
     disconnected := b; client := client m; verbose := verbose m;
     api := api m; connectToken := connectToken m |}.

Definition set_client (c : option PahoClient) (m : MQTT) : MQTT :=
  {| host := host m; port := port m; prefix := prefix m;
     clientID := clientID m; sslEnabled := sslEnabled m;
     username := username m; password := password m;
     caCertPath := caCertPath m; clientCertPath := clientCertPath m;
     privateKeyPath := privateKeyPath m; keepAliveSec := keepAliveSec m;
     pingTimeoutSec := pingTimeoutSec m; subscriptionQos := subscriptionQos m;
     persistent := persistent m; order := order m; connecting := connecting m;
     disconnected := disconnected m; client := c; verbose := verbose m;
     api := api m; connectToken := connectToken m |}.

Definition set_api (a : option API) (m : MQTT) : MQTT :=
  {| host := host m; port := port m; prefix := prefix m;
     clientID := clientID m; sslEnabled := sslEnabled m;
     username := username m; password := password m;
     caCertPath := caCertPath m; clientCertPath := clientCertPath m;
     privateKeyPath := privateKeyPath m; keepAliveSec := keepAliveSec m;
     pingTimeoutSec := pingTimeoutSec m; subscriptionQos := subscriptionQos m;
     persistent := persistent m; order := order m; connecting := connecting m;
     disconnected := disconnected m; client := client m; verbose := verbose m;
     api := a; connectToken := connectToken m |}.

Definition set_connectToken (t : option ConnectToken) (m : MQTT) : MQTT :=
  {| host := host m; port := port m; prefix := prefix m;
     clientID := clientID m; sslEnabled := sslEnabled m;
     username := username m; password := password m;
     caCertPath := caCertPath m; clientCertPath := clientCertPath m;
     privateKeyPath := privateKeyPath m; keepAliveSec := keepAliveSec m;
     pingTimeoutSec := pingTimeoutSec m; subscriptionQos := subscriptionQos m;
     persistent := persistent m; order := order m; connecting := connecting m;
     disconnected := disconnected m; client := client m; verbose := verbose m;
     api := api m; connectToken := t |}.

(** ** Calls to the outside world *)

Inductive LogLevel : Type := LInfo | LWarn | LError.

(** What a [go] statement starts. *)
Inductive Goroutine : Type :=
| (** the loop [for range ticker.C] of [retryConnect], on its ticker *)
  GoTickerLoop (ticker : nat)
| (** [topic.Handler(m.api, m.prefix, msg.Topic(), msg.Payload())] *)
  GoHandler (h : HandlerRef) (a : option API) (pfx topic : string)
            (payload : bytes).

#[warnings="-register-all"]
Inductive Call : Type :=
| CSetupLogger (verbose : bool)
| CLog (lvl : LogLevel) (format : string) (args : list string)
| CNewClient (o : option ClientOptions)
| CConnect
| CDisconnect (quiesce : Z)
| CIsConnected
| (** the callback reads [m.api] and [m.prefix] through the pointer [m]
      when a message arrives: it takes the struct as it is then *)
  CSubscribe (path : string) (qos : Z) (callback : MQTT -> Message -> list Call)
| CPublish (topic : string) (qos : Z) (retained : bool) (payload : string)
| CTokenWait
| CNewTicker (d : Z)
| CTickerStop (ticker : nat)
| CGo (g : Goroutine).

(** [%v] of a bool *)
Definition fmt_bool (b : bool) : string := if b then "true" else "false".

(** ** Construction *)

Definition getProtocol (m : MQTT) : string :=
  if sslEnabled m then "ssl" else "tcp".

(** The Go function returns a [*paho.ClientOptions] and an [error]; a nil
    pointer and a nil error are [None]. *)
Definition initMQTTClientOptions (env : Env) (client : MQTT)
  : GoResult (option ClientOptions * option string) :=
  let opts := NewClientOptions env in
  let opts :=
    if decide (username client ≠ "") then SetUsername (username client) opts
    else opts in
  let opts :=
    if decide (password client ≠ "") then SetPassword (password client) opts
    else opts in
  (* TLS CONFIG *)
  let tlsConfig := {| RootCAs := None; Certificates := [] |} in
  let tlsConfig :=
    if decide (caCertPath client ≠ "") then
      match ReadFile env (caCertPath client) with
      | inl pemCerts =>
          {| RootCAs := Some (fst (AppendCertsFromPEM env NewCertPool pemCerts));
             Certificates := Certificates tlsConfig |}
      | inr _ =>
          {| RootCAs := Some NewCertPool;
             Certificates := Certificates tlsConfig |}
      end
    else tlsConfig in
  let keypair : GoResult (TLSConfig + string) :=
    if decide (clientCertPath client ≠ "" ∧ privateKeyPath client ≠ "") then
      match LoadX509KeyPair env (clientCertPath client) (privateKeyPath client) with
      | inr err => Returned (inr ("error loading client keypair: " +:+ err))
      | inl cert =>
          match Certificate cert with
          | [] => Panicked
          | der :: _ =>
              match ParseCertificate env der with
              | inr err =>
                  Returned (inr ("error parsing client certificate: " +:+ err))
              | inl leaf =>
                  let cert := {| Certificate := Certificate cert;
                                 Leaf := Some leaf |} in
                  Returned (inl {| RootCAs := RootCAs tlsConfig;
                                   Certificates := [cert] |})
              end
          end
      end
    else Returned (inl tlsConfig) in
  match keypair with
  | Panicked => Panicked
  | Returned (inr err) => Returned (None, Some err)
  | Returned (inl tlsConfig) =>
      let opts :=
        AddBroker (getProtocol client +:+ "://" +:+ host client +:+ ":"
                   +:+ pretty (port client)) opts in
      let opts := SetTLSConfig tlsConfig opts in
      let opts := SetClientID (clientID client) opts in
      let opts := SetCleanSession (negb (persistent client)) opts in
      let opts := SetOrderMatters (order client) opts in
      let opts := SetKeepAlive (seconds (keepAliveSec client)) opts in
      let opts := SetPingTimeout (seconds (pingTimeoutSec client)) opts in
      let opts := SetAutoReconnect false opts in
      let opts := SetConnectionLostHandler mv_connectionLostHandler opts in
      let opts := SetOnConnectHandler mv_connectHandler opts in
      Returned (Some opts, None)
  end.

(** [CreateMQTTClient] has one result, the client: there is no error
    result.  The model returns it with the calls made on the way. *)
Definition CreateMQTTClient (env : Env) (config : MQTTConfig)
  : GoResult (MQTT * list Call) :=
  let mqttClient :=
    {| host := Host config;
       port := Port config;
       prefix := Prefix config;
       clientID := ClientID config;
       subscriptionQos := SubscriptionQos config;
       persistent := Persistent config;
       order := Order config;
       sslEnabled := SSL config;
       username := Username config;
       password := Password config;
       caCertPath := CaCertFile config;
       clientCertPath := ClientCertFile config;
       privateKeyPath := PrivateKeyFile config;
       keepAliveSec := KeepAliveSec config;
       pingTimeoutSec := PingTimeoutSec config;
       connecting := false;
       disconnected := false;
       client := None;
       verbose := false;
       api := None;
       connectToken := None |} in
  match initMQTTClientOptions env mqttClient with
  | Panicked => Panicked
  | Returned (opts, err) =>
      let logged :=
        match err with
        | Some e => [CLog LError "unable to configure MQTT client: %s" [e]]
        | None => []
        end in
      let pahoClient := NewClient opts in
      Returned (set_client (Some pahoClient) mqttClient,
                [CSetupLogger (Verbose config)] ++ logged ++ [CNewClient opts])
  end.

(** ** The running client: a small monad

    The state is the struct behind the pointer [m] and the tickers the Go
    runtime holds (ticker [i] is running iff [tickers !! i = Some true]).
    A computation reads the broker's answers from a [Transport], may
    change the state, records its calls, and may panic. *)

Record World := { self : MQTT; tickers : list bool }.

(** The broker's answers while one handler runs. *)
Record Transport := {
  (** the token [m.client.Connect()] returns, once it has completed *)
  ConnectAnswer : ConnectToken;
  (** [m.client.IsConnected()] *)
  IsConnectedAnswer : bool;
  (** the token of the [i]-th [Subscribe] call of the run *)
  SubscribeAnswer : nat -> Token;
  (** the token [m.client.Publish(...)] returns *)
  PublishAnswer : Token }.

Definition M (A : Type) : Type :=
  Transport -> World -> GoResult (A * World * list Call).

Definition ret {A} (a : A) : M A := fun _ w => Returned (a, w, []).

Definition bind {A B} (c : M A) (k : A -> M B) : M B :=
  fun tr w =>
    match c tr w with
    | Panicked => Panicked
    | Returned (a, w1, cs1) =>
        match k a tr w1 with
        | Panicked => Panicked
        | Returned (b, w2, cs2) => Returned (b, w2, cs1 ++ cs2)
        end
    end.

Declare Scope go_scope.
Delimit Scope go_scope with go.
Notation "x <- c ;; k" := (bind c (fun x => k))
  (at level 20, c at level 99, k at level 200) : go_scope.
Notation "c ;; k" := (bind c (fun _ => k))
  (at level 100, k at level 200, right associativity) : go_scope.
Open Scope go_scope.

Definition panic {A} : M A := fun _ _ => Panicked.
Definition call (c : Call) : M unit := fun _ w => Returned (tt, w, [c]).
Definition transport : M Transport := fun tr w => Returned (tr, w, []).
Definition getm : M MQTT := fun _ w => Returned (self w, w, []).
Definition modm (f : MQTT -> MQTT) : M unit :=
  fun _ w => Returned (tt, {| self := f (self w); tickers := tickers w |}, []).

(** A method call on [m.client]: on a nil interface it panics. *)
Definition clientCall (c : Call) : M unit :=
  m <- getm ;;
  match client m with
  | None => panic
  | Some _ => call c
  end.

Definition logf (lvl : LogLevel) (format : string) (args : list string) : M unit :=
  call (CLog lvl format args).

(** [time.NewTicker(d)]: a new running ticker, named by its index. *)
Definition NewTicker (d : Z) : M nat :=
  fun _ w =>
    Returned (length (tickers w),
              {| self := self w; tickers := tickers w ++ [true] |},
              [CNewTicker d]).

(** [ticker.Stop()] *)
Definition TickerStop (ticker : nat) : M unit :=
  fun _ w =>
    Returned (tt,
              {| self := self w; tickers := <[ticker := false]> (tickers w) |},
              [CTickerStop ticker]).

Definition go (g : Goroutine) : M unit := call (CGo g).

(** The number of running tickers: the active retry cycles. *)
Definition active (w : World) : nat :=
  length (filter (λ b, b = true) (tickers w)).

(** ** The methods of [*MQTT] *)

(** Stop the MQTT client *)
Definition Stop : M unit :=
  clientCall (CDisconnect 500).

(** The function literal [subscribe] hands to [Subscribe] for [topic]
    (the loop variable is copied into [topic] first, so every closure has
    its own):
    [func(client, msg) { go topic.Handler(m.api, m.prefix, msg.Topic(), msg.Payload()) }] *)
Definition dispatch (topic : Topic) : MQTT -> Message -> list Call :=
  fun m msg =>
    [CGo (GoHandler (Handler topic) (api m) (prefix m)
                    (msg_Topic msg) (msg_Payload msg))].

(** [for _, t := range topics]; [i] counts the [Subscribe] calls made. *)
Fixpoint subscribeLoop (i : nat) (topics : list Topic) : M unit :=
  match topics with
  | [] => ret tt
  | t :: rest =>
      let topic := t in
      logf LInfo "MQTT client subscribing to %s" [Path topic] ;;
      m <- getm ;;
      clientCall (CSubscribe (Path topic) (subscriptionQos m) (dispatch topic)) ;;
      tr <- transport ;;
      let token := SubscribeAnswer tr i in
      call CTokenWait ;;
      (if tok_Wait token then
         match tok_Error token with
         | Some e => logf LError "%v" [e]
         | None => ret tt
         end
       else ret tt) ;;
      subscribeLoop (S i) rest
  end.

Definition subscribe : M unit :=
  m <- getm ;;
  match api m with
  | None => panic
  | Some a => subscribeLoop 0 (GetTopics a (prefix m))
  end.

(** Publish a message on a topic.  The method has no result. *)
Definition Publish (topic message : string) (qos : Z) : M unit :=
  clientCall (CPublish topic qos false message) ;;
  tr <- transport ;;
  let token := PublishAnswer tr in
  call CTokenWait.

(** retryConnect starts a ticker which tries to connect every 5 seconds;
    the loop it starts is [tickerBody] below, once per tick. *)
Definition retryConnect : M unit :=
  logf LInfo "MQTT client starting reconnect procedure in background" [] ;;
  modm (set_connecting true) ;;
  ticker <- NewTicker (Second * 5) ;;
  go (GoTickerLoop ticker).

Definition connect : M unit :=
  clientCall CConnect ;;
  tr <- transport ;;
  modm (set_connectToken (Some (ConnectAnswer tr))) ;;
  call CTokenWait ;;
  m <- getm ;;
  match connectToken m with
  | None => panic
  | Some token =>
      if ct_Wait token then
        match ct_Error token with
        | Some e =>
            if negb (connecting m) then
              logf LError "MQTT client %s" [e] ;;
              retryConnect
            else ret tt
        | None => ret tt
        end
      else ret tt
  end.

(** One iteration of [for range ticker.C] in the goroutine of
    [retryConnect]. *)
Definition tickerBody (ticker : nat) : M unit :=
  connect ;;
  clientCall CIsConnected ;;
  tr <- transport ;;
  if IsConnectedAnswer tr then
    TickerStop ticker ;;
    modm (set_connecting false)
  else ret tt.

Definition connectHandler : M unit :=
  logf LInfo "MQTT client connected" [] ;;
  m <- getm ;;
  match connectToken m with
  | None => panic
  | Some token =>
      let hasSession := ct_SessionPresent token in
      logf LInfo "MQTT Session present: %v" [fmt_bool hasSession] ;;
      (* on first connect, connection lost and persistance is off or no
         previous session found *)
      (if negb (disconnected m) || (disconnected m && negb (persistent m))
          || negb hasSession
       then subscribe
       else ret tt) ;;
      modm (set_disconnected false)
  end.

Definition connectionLostHandler (err : string) : M unit :=
  logf LWarn "MQTT client lost connection: %v" [err] ;;
  modm (set_disconnected true) ;;
  retryConnect.

(** Start running the MQTT client.  The method has no result. *)
Definition Start (a : API) : M unit :=
  modm (set_api (Some a)) ;;
  m <- getm ;;
  logf LInfo
    "Starting MQTT client on %s://%s:%v with Prefix:%v, Persistence:%v, OrderMatters:%v, KeepAlive:%v, PingTimeout:%v, QOS:%v"
    [getProtocol m; host m; pretty (port m); prefix m; fmt_bool (persistent m);
     fmt_bool (order m); pretty (keepAliveSec m); pretty (pingTimeoutSec m);
     pretty (subscriptionQos m)] ;;
  connect.

(** ** What happens to a client

    The server calls [Start], [Stop] and [Publish]; paho calls the two
    handlers registered in the options the client was built from; the Go
    runtime delivers the ticks of the running tickers. *)

Inductive Event : Type :=
| EvStart (a : API)
| EvStop
| EvPublish (topic message : string) (qos : Z)
| EvOnConnect
| EvConnectionLost (err : string)
| EvTick (ticker : nat).

Definition runOnConnect (h : OnConnectHandler) : M unit :=
  match h with mv_connectHandler => connectHandler end.

Definition runConnectionLost (h : ConnectionLostHandler) (err : string) : M unit :=
  match h with mv_connectionLostHandler => connectionLostHandler err end.

(** The options the client of [m] was built from. *)
Definition optionsOf (m : MQTT) : option ClientOptions :=
  match client m with
  | Some c => paho_options c
  | None => None
  end.

Definition handle (e : Event) : M unit :=
  match e with
  | EvStart a => Start a
  | EvStop => Stop
  | EvPublish topic message qos => Publish topic message qos
  | EvOnConnect =>
      m <- getm ;;
      match optionsOf m with
      | Some o =>
          match OnConnect o with
          | Some h => runOnConnect h
          | None => ret tt
          end
      | None => ret tt
      end
  | EvConnectionLost err =>
      m <- getm ;;
      match optionsOf m with
      | Some o =>
          match OnConnectionLost o with
          | Some h => runConnectionLost h err
          | None => ret tt
          end
      | None => ret tt
      end
  | EvTick ticker =>
      fun tr w =>
        match tickers w !! ticker with
        | Some true => tickerBody ticker tr w
        | _ => Returned (tt, w, [])
        end
  end.

(** A history: each event with the broker's answers while it is handled. *)
Fixpoint run (history : list (Transport * Event)) : World -> GoResult (World * list Call) :=
  fun w =>
    match history with
    | [] => Returned (w, [])
    | (tr, e) :: rest =>
        match handle e tr w with
        | Panicked => Panicked
        | Returned (_, w1, cs1) =>
            match run rest w1 with
            | Panicked => Panicked
            | Returned (w2, cs2) => Returned (w2, cs1 ++ cs2)
            end
        end
    end.

(** ** Reading a trace *)

Definition isSubscribe (c : Call) : option (string * Z) :=
  match c with
  | CSubscribe path qos _ => Some (path, qos)
  | _ => None
  end.

(** The [Subscribe] calls of a trace, in order: path and QoS. *)
Definition subscribeCalls (cs : list Call) : list (string * Z) :=
  omap isSubscribe cs.

Definition isCallback (c : Call) : option (MQTT -> Message -> list Call) :=
  match c with
  | CSubscribe _ _ cb => Some cb
  | _ => None
  end.

(** The message callbacks handed to [Subscribe], in order. *)
Definition callbacks (cs : list Call) : list (MQTT -> Message -> list Call) :=
  omap isCallback cs.

(** A publish call: topic, QoS, retain flag, payload. *)
Definition isPublish (c : Call) : option (string * Z * bool * string) :=
  match c with
  | CPublish topic qos retained payload => Some (topic, qos, retained, payload)
  | _ => None
  end.

Definition isErrorLog (c : Call) : option string :=
  match c with
  | CLog LError _ [e] => Some e
  | _ => None
  end.

(** The errors logged in a trace, in order. *)
Definition errorsLogged (cs : list Call) : list string :=
  omap isErrorLog cs.

(** A call that starts or drives a reconnect: a connect attempt, a new
    ticker, or a goroutine running the ticker loop. *)
Definition isReconnect (c : Call) : bool :=
  match c with
  | CConnect | CNewTicker _ | CGo (GoTickerLoop _) => true
  | _ => false
  end.

Definition isTickerStop (c : Call) : bool :=
  match c with
  | CTickerStop _ => true
  | _ => false
  end.

(** What a caller of [CreateMQTTClient] and a reader of the log can tell
    about a construction: whether it returned, and then whether the client
    was built from options at all and which errors were logged. *)
Definition constructionOutcome (r : GoResult (MQTT * list Call))
  : option (bool * list string) :=
  match r with
  | Returned (m, cs) =>
      Some (match optionsOf m with Some _ => true | None => false end,
            errorsLogged cs)
  | Panicked => None
  end.

(** ** The trace of the subscription loop *)

(** What the broker's answer to the [i]-th [Subscribe] makes the loop log:
    the token's error, if the wait reports completion. *)
Definition failure (tr : Transport) (i : nat) : option string :=
  if tok_Wait (SubscribeAnswer tr i) then tok_Error (SubscribeAnswer tr i)
  else None.

(** The calls of one iteration of the loop, for topic [t] as call [i]. *)
Definition iterationTrace (tr : Transport) (qos : Z) (i : nat) (t : Topic)
  : list Call :=
  [CLog LInfo "MQTT client subscribing to %s" [Path t];
   CSubscribe (Path t) qos (dispatch t);
   CTokenWait]
  ++ match failure tr i with
     | Some e => [CLog LError "%v" [e]]
     | None => []
     end.

Fixpoint loopTrace (tr : Transport) (qos : Z) (i : nat) (topics : list Topic)
  : list Call :=
  match topics with
  | [] => []
  | t :: rest => iterationTrace tr qos i t ++ loopTrace tr qos (S i) rest
  end.

(** ** Sample data: a server, a machine, a broker

    Used by the evaluated examples below. *)

Module Sample.

(** The server's topics, in its order. *)
Definition server : API :=
  {| GetTopics := fun pfx =>
       [ {| Path := pfx +:+ "/v1.0/Things"; Handler := "CreateThing" |};
         {| Path := pfx +:+ "/v1.0/Datastreams(+)/Observations";
            Handler := "CreateObservation" |};
         {| Path := pfx +:+ "/v1.0/Locations"; Handler := "CreateLocation" |} ] |}.

(** paho's defaults reconnect on their own. *)
Definition pahoDefaults : ClientOptions :=
  {| Servers := []; opt_ClientID := ""; opt_Username := "";
     opt_Password := ""; CleanSession := true; OrderMatters := true;
     KeepAlive := 30 * Second; PingTimeout := 10 * Second;
     opt_TLSConfig := None; AutoReconnect := true; OnConnect := None;
     OnConnectionLost := None |}.

(** A machine on which no certificate file can be read. *)
Definition env : Env :=
  {| ReadFile := fun path => inr ("open " +:+ path +:+ ": no such file or directory");
     AppendCertsFromPEM := fun pool _ => (pool, false);
     LoadX509KeyPair := fun cert _ =>
       inr ("open " +:+ cert +:+ ": no such file or directory");
     ParseCertificate := fun _ => inr "x509: malformed certificate";
     NewClientOptions := pahoDefaults |}.

Definition config : MQTTConfig :=
  {| Verbose := false; Host := "localhost"; Port := 1883; Prefix := "GOST";
     ClientID := "gost"; SubscriptionQos := 1; Persistent := true;
     Order := false; SSL := false; Username := ""; Password := "";
     CaCertFile := ""; ClientCertFile := ""; PrivateKeyFile := "";
     KeepAliveSec := 300; PingTimeoutSec := 20 |}.

(** The same, with a trust anchor configured. *)
Definition configCA : MQTTConfig :=
  {| Verbose := false; Host := "localhost"; Port := 8883; Prefix := "GOST";
     ClientID := "gost"; SubscriptionQos := 1; Persistent := true;
     Order := false; SSL := true; Username := ""; Password := "";
     CaCertFile := "ca.pem"; ClientCertFile := ""; PrivateKeyFile := "";
     KeepAliveSec := 300; PingTimeoutSec := 20 |}.


Definition ack : Token := {| tok_Wait := true; tok_Error := None |}.
Definition nack (e : string) : Token :=
  {| tok_Wait := true; tok_Error := Some e |}.

(** A broker that accepts everything; no session kept. *)
Definition up : Transport :=
  {| ConnectAnswer :=
       {| ct_Wait := true; ct_Error := None; ct_SessionPresent := false |};
     IsConnectedAnswer := true;
     SubscribeAnswer := fun _ => ack;
     PublishAnswer := ack |}.

(** A broker that accepts the connection and reports the session kept. *)
Definition resumed : Transport :=
  {| ConnectAnswer :=
       {| ct_Wait := true; ct_Error := None; ct_SessionPresent := true |};
     IsConnectedAnswer := true;
     SubscribeAnswer := fun _ => ack;
     PublishAnswer := ack |}.

(** A broker that cannot be reached. *)
Definition down : Transport :=
  {| ConnectAnswer :=
       {| ct_Wait := true;
          ct_Error := Some "Network Error : dial tcp: connection refused";
          ct_SessionPresent := false |};
     IsConnectedAnswer := false;
     SubscribeAnswer := fun _ => nack "not Connected";
     PublishAnswer := nack "not Connected" |}.

(** A broker that accepts the connection and drops it at once: the
    connect token completes without error, and the client is no longer
    connected when asked. *)
Definition flapping : Transport :=
  {| ConnectAnswer :=
       {| ct_Wait := true; ct_Error := None; ct_SessionPresent := false |};
     IsConnectedAnswer := false;
     SubscribeAnswer := fun _ => nack "not Connected";
     PublishAnswer := nack "not Connected" |}.

(** A broker that refuses the second subscription only. *)
Definition picky : Transport :=
  {| ConnectAnswer :=
       {| ct_Wait := true; ct_Error := None; ct_SessionPresent := false |};
     IsConnectedAnswer := true;
     SubscribeAnswer := fun i =>
       match i with
       | 1%nat => nack "subscription refused"
       | _ => ack
       end;
     PublishAnswer := ack |}.

(** The struct [CreateMQTTClient] builds from [config] and the options
    it hands to paho, evaluated. *)
Definition options : ClientOptions :=
  {| Servers := ["tcp://localhost:1883"]; opt_ClientID := "gost";
     opt_Username := ""; opt_Password := ""; CleanSession := false;
     OrderMatters := false; KeepAlive := 300 * Second;
     PingTimeout := 20 * Second;
     opt_TLSConfig := Some {| RootCAs := None; Certificates := [] |};
     AutoReconnect := false; OnConnect := Some mv_connectHandler;
     OnConnectionLost := Some mv_connectionLostHandler |}.

Definition created : MQTT :=
  {| host := "localhost"; port := 1883; prefix := "GOST";
     clientID := "gost"; sslEnabled := false; username := "";
     password := ""; caCertPath := ""; clientCertPath := "";
     privateKeyPath := ""; keepAliveSec := 300; pingTimeoutSec := 20;
     subscriptionQos := 1; persistent := true; order := false;
     connecting := false; disconnected := false;
     client := Some (NewClient (Some options)); verbose := false;
     api := None; connectToken := None |}.

(** The world right after construction: no ticker yet. *)
Definition fresh : World := {| self := created; tickers := [] |}.

(** A machine on which the trust anchor and the client key pair load. *)
Definition envTLS : Env :=
  {| ReadFile := fun _ => inl [Byte.x2d; Byte.x2d];
     AppendCertsFromPEM := fun pool _ => (pool ++ ["CN=broker-ca"], true);
     LoadX509KeyPair := fun _ _ =>
       inl {| Certificate := [[Byte.x30; Byte.x82]]; Leaf := None |};
     ParseCertificate := fun _ => inl "CN=gost";
     NewClientOptions := pahoDefaults |}.

(** A configuration with trust anchor, client key pair and credentials,
    and with SSL switched off. *)
Definition configTLS : MQTTConfig :=
  {| Verbose := false; Host := "broker"; Port := 1883; Prefix := "GOST";
     ClientID := "gost"; SubscriptionQos := 1; Persistent := false;
     Order := true; SSL := false; Username := "sensor"; Password := "s3cret";
     CaCertFile := "ca.pem"; ClientCertFile := "client.crt";
     PrivateKeyFile := "client.key";
     KeepAliveSec := 300; PingTimeoutSec := 20 |}.

(** The same, with the key file left out. *)
Definition configHalfKeyPair : MQTTConfig :=
  {| Verbose := false; Host := "broker"; Port := 1883; Prefix := "GOST";
     ClientID := "gost"; SubscriptionQos := 1; Persistent := false;
     Order := true; SSL := false; Username := "sensor"; Password := "s3cret";
     CaCertFile := "ca.pem"; ClientCertFile := "client.crt";
     PrivateKeyFile := "";
     KeepAliveSec := 300; PingTimeoutSec := 20 |}.

(** The struct of a client with trust anchor and key pair configured,
    with the SSL switch as given. *)
Definition clientTLS (ssl : bool) : MQTT :=
  {| host := "broker"; port := 1883; prefix := "GOST";
     clientID := "gost"; sslEnabled := ssl; username := "sensor";
     password := "s3cret"; caCertPath := "ca.pem";
     clientCertPath := "client.crt"; privateKeyPath := "client.key";
     keepAliveSec := 300; pingTimeoutSec := 20;
     subscriptionQos := 1; persistent := false; order := true;
     connecting := false; disconnected := false;
     client := None; verbose := false;
     api := None; connectToken := None |}.

(** The world after [Start] against the broker [up]. *)
Definition started : World :=
  {| self := set_connectToken (Some (ConnectAnswer up))
               (set_api (Some server) created);
     tickers := [] |}.

(** The world after the connection was then lost: the first retry
    ticker is running. *)
Definition pending : World :=
  {| self := set_connecting true (set_disconnected true (self started));
     tickers := [true] |}.

(** The world after a tick of that ticker then reached the broker
    [resumed]: connected again, the handler not yet run. *)
Definition reconnected : World :=
  {| self := set_connecting false
               (set_connectToken (Some (ConnectAnswer resumed)) (self pending));
     tickers := [false] |}.

(** A message arriving from the broker. *)
Definition message : Message :=
  {| msg_Topic := "GOST/v1.0/Things";
     msg_Payload := [Byte.x7b; Byte.x22; Byte.x69; Byte.x64; Byte.x22; Byte.x3a;
                     Byte.x31; Byte.x7d] |}.

End Sample.

(** ** Reading a history *)

(** The client is wired up and started: it has a transport client built
    from options with both handlers registered, [Start] has set the API,
    and a connect attempt has left its token. *)
Definition ready (w : World) : Prop :=
  (exists c o,
     client (self w) = Some c
     /\ paho_options c = Some o
     /\ OnConnect o = Some mv_connectHandler
     /\ OnConnectionLost o = Some mv_connectionLostHandler)
  /\ is_Some (api (self w))
  /\ is_Some (connectToken (self w)).

(** Whether the last callback of the history was a connection loss
    rather than a connect; [before] if it has neither. *)
Fixpoint lostSinceConnect (history : list (Transport * Event)) (before : bool)
  : bool :=
  match history with
  | [] => before
  | (_, EvConnectionLost _) :: rest => lostSinceConnect rest true
  | (_, EvOnConnect) :: rest => lostSinceConnect rest false
  | _ :: rest => lostSinceConnect rest before
  end.

Definition isConnect (c : Call) : bool :=
  match c with
  | CConnect => true
  | _ => false
  end.

(** The connect attempts of a trace. *)
Definition connectAttempts (cs : list Call) : nat :=
  length (filter (fun c => isConnect c = true) cs).

(** * Properties *)

(** Runs the monad's plumbing on the goal. *)
Ltac go_step :=
  unfold bind, logf, go, call, getm, modm, clientCall, transport, ret, panic,
    NewTicker, TickerStop; cbn.

(** ** The subscription loop *)

Lemma subscribeLoop_trace tr w c :
  client (self w) = Some c ->
  forall topics i,
    subscribeLoop i topics tr w
    = Returned (tt, w, loopTrace tr (subscriptionQos (self w)) i topics).
Proof.
  intros Hc topics. induction topics as [|t rest IH]; intros i.
  - reflexivity.
  - cbn [subscribeLoop loopTrace]. go_step. rewrite Hc. cbn.
    unfold failure.
    destruct (tok_Wait (SubscribeAnswer tr i));
      [destruct (tok_Error (SubscribeAnswer tr i))|];
      rewrite IH; reflexivity.
Qed.

Lemma subscribe_trace tr w a c :
  api (self w) = Some a ->
  client (self w) = Some c ->
  subscribe tr w
  = Returned (tt, w, loopTrace tr (subscriptionQos (self w)) 0
                               (GetTopics a (prefix (self w)))).
Proof.
  intros Ha Hc. unfold subscribe. go_step. rewrite Ha.
  rewrite (subscribeLoop_trace tr w c Hc). reflexivity.
Qed.

Lemma loopTrace_subscribeCalls tr qos topics :
  forall i,
    subscribeCalls (loopTrace tr qos i topics)
    = map (fun t => (Path t, qos)) topics.
Proof.
  induction topics as [|t rest IH]; intros i; [reflexivity|].
  cbn [loopTrace map]. unfold subscribeCalls in *.
  rewrite omap_app, IH. unfold iterationTrace.
  destruct (failure tr i); reflexivity.
Qed.

Lemma loopTrace_callbacks tr qos topics :
  forall i, callbacks (loopTrace tr qos i topics) = map dispatch topics.
Proof.
  induction topics as [|t rest IH]; intros i; [reflexivity|].
  cbn [loopTrace map]. unfold callbacks in *.
  rewrite omap_app, IH. unfold iterationTrace.
  destruct (failure tr i); reflexivity.
Qed.

Lemma loopTrace_errorsLogged tr qos topics :
  forall i,
    errorsLogged (loopTrace tr qos i topics)
    = omap (failure tr) (seq i (length topics)).
Proof.
  induction topics as [|t rest IH]; intros i; [reflexivity|].
  cbn [loopTrace length seq]. unfold errorsLogged in *.
  rewrite omap_app, IH. unfold iterationTrace.
  destruct (failure tr i) eqn:E; cbn; rewrite E; reflexivity.
Qed.

Lemma loopTrace_no_reconnect tr qos topics :
  forall i, Forall (fun c => isReconnect c = false) (loopTrace tr qos i topics).
Proof.
  induction topics as [|t rest IH]; intros i; [constructor|].
  cbn [loopTrace]. apply Forall_app. split; [|apply IH].
  unfold iterationTrace. destruct (failure tr i); repeat constructor.
Qed.

(** C7. Subscription restoration walks the topic list in its order and
    issues one [Subscribe] per topic whatever the broker answers to the
    others: the [Subscribe] calls of the run are exactly the topics, in
    order, for every pattern of failures; the error of every failed
    subscription is logged; no call of the run starts a reconnect, and the
    client's state (flags and tickers) is what it was. *)
Theorem subscribe_attempts_every_topic tr w a c :
  api (self w) = Some a ->
  client (self w) = Some c ->
  exists cs,
    subscribe tr w = Returned (tt, w, cs)
    /\ subscribeCalls cs
       = map (fun t => (Path t, subscriptionQos (self w)))
             (GetTopics a (prefix (self w)))
    /\ (forall i t e,
          GetTopics a (prefix (self w)) !! i = Some t ->
          tok_Wait (SubscribeAnswer tr i) = true ->
          tok_Error (SubscribeAnswer tr i) = Some e ->
          e ∈ errorsLogged cs)
    /\ Forall (fun c => isReconnect c = false) cs.
Proof.
  intros Ha Hc. eexists. split; [apply (subscribe_trace tr w a c Ha Hc)|].
  split; [apply loopTrace_subscribeCalls|].
  split; [|apply loopTrace_no_reconnect].
  intros i t e Ht Hw He. rewrite loopTrace_errorsLogged.
  apply list_elem_of_omap. exists i. split.
  - apply elem_of_seq. apply lookup_lt_Some in Ht. lia.
  - unfold failure. rewrite Hw. exact He.
Qed.

Lemma subscribe_attempts_every_topic_witness :
  exists cs,
    subscribe Sample.picky Sample.started = Returned (tt, Sample.started, cs)
    /\ subscribeCalls cs
       = [("GOST/v1.0/Things", 1);
          ("GOST/v1.0/Datastreams(+)/Observations", 1);
          ("GOST/v1.0/Locations", 1)]
    /\ "subscription refused" ∈ errorsLogged cs.
Proof.
  destruct (subscribe_attempts_every_topic Sample.picky Sample.started
              Sample.server (NewClient (Some Sample.options))
              eq_refl eq_refl) as (cs & Hrun & Hcalls & Hlog & _).
  exists cs. split; [exact Hrun|]. split; [exact Hcalls|].
  apply (Hlog 1%nat {| Path := "GOST/v1.0/Datastreams(+)/Observations";
                       Handler := "CreateObservation" |});
    reflexivity.
Defined.

(** C8. Every callback [subscribe] hands to the transport, applied to an
    inbound message, does one thing: it starts a goroutine that calls the
    handler of the topic it was registered for with the client's API, the
    client's prefix, the message's topic and the message's payload, both
    exactly as the message carries them. *)
Theorem dispatch_passes_message_through tr w a c :
  api (self w) = Some a ->
  client (self w) = Some c ->
  exists cs,
    subscribe tr w = Returned (tt, w, cs)
    /\ length (callbacks cs) = length (GetTopics a (prefix (self w)))
    /\ forall i t,
         GetTopics a (prefix (self w)) !! i = Some t ->
         exists cb,
           callbacks cs !! i = Some cb
           /\ subscribeCalls cs !! i = Some (Path t, subscriptionQos (self w))
           /\ forall m msg,
                cb m msg
                = [CGo (GoHandler (Handler t) (api m) (prefix m)
                                  (msg_Topic msg) (msg_Payload msg))].
Proof.
  intros Ha Hc. eexists. split; [apply (subscribe_trace tr w a c Ha Hc)|].
  rewrite loopTrace_callbacks, loopTrace_subscribeCalls.
  split; [apply length_map|].
  intros i t Ht. exists (dispatch t).
  rewrite !list_lookup_fmap_Some_2 with (x := t) by exact Ht.
  repeat split; reflexivity.
Qed.

Lemma dispatch_passes_message_through_witness :
  exists cs cb,
    subscribe Sample.up Sample.started = Returned (tt, Sample.started, cs)
    /\ callbacks cs !! 0%nat = Some cb
    /\ cb (self Sample.started) Sample.message
       = [CGo (GoHandler "CreateThing" (Some Sample.server) "GOST"
                         "GOST/v1.0/Things" (msg_Payload Sample.message))].
Proof.
  destruct (dispatch_passes_message_through Sample.up Sample.started
              Sample.server (NewClient (Some Sample.options))
              eq_refl eq_refl) as (cs & Hrun & _ & Hcb).
  destruct (Hcb 0%nat {| Path := "GOST/v1.0/Things"; Handler := "CreateThing" |}
              eq_refl) as (cb & Hlook & _ & Hpass).
  exists cs, cb. split; [exact Hrun|]. split; [exact Hlook|]. apply Hpass.
Defined.

(** ** The connect handler *)

(** The connect handler returns whenever [Start] has run (the API and the
    connect token are set): it subscribes or not by its test, and clears
    [disconnected]. *)
Lemma connectHandler_trace tr w a c token :
  api (self w) = Some a ->
  client (self w) = Some c ->
  connectToken (self w) = Some token ->
  connectHandler tr w
  = Returned
      (tt,
       {| self := set_disconnected false (self w); tickers := tickers w |},
       [CLog LInfo "MQTT client connected" [];
        CLog LInfo "MQTT Session present: %v" [fmt_bool (ct_SessionPresent token)]]
       ++ (if negb (disconnected (self w))
              || (disconnected (self w) && negb (persistent (self w)))
              || negb (ct_SessionPresent token)
           then loopTrace tr (subscriptionQos (self w)) 0
                          (GetTopics a (prefix (self w)))
           else [])).
Proof.
  intros Ha Hc Ht. unfold connectHandler. go_step. rewrite Ht. cbn.
  destruct (negb (disconnected (self w))
            || (disconnected (self w) && negb (persistent (self w)))
            || negb (ct_SessionPresent token)).
  - rewrite (subscribe_trace tr w a c Ha Hc). cbn. rewrite app_nil_r. reflexivity.
  - reflexivity.
Qed.



(** ** Publish *)

Lemma Publish_trace tr w c topic message qos :
  client (self w) = Some c ->
  Publish topic message qos tr w
  = Returned (tt, w, [CPublish topic qos false message; CTokenWait]).
Proof.
  intros Hc. unfold Publish. go_step. rewrite Hc. reflexivity.
Qed.

(** C10. Whatever the topic, the message and the QoS, [Publish] makes one
    publish call on the transport, and its retain flag is false. *)
Theorem Publish_never_retains tr w c topic message qos :
  client (self w) = Some c ->
  exists w' cs,
    Publish topic message qos tr w = Returned (tt, w', cs)
    /\ omap isPublish cs = [(topic, qos, false, message)].
Proof.
  intros Hc. exists w. eexists. split.
  - apply (Publish_trace tr w c topic message qos Hc).
  - reflexivity.
Qed.

Lemma Publish_never_retains_witness :
  exists w' cs,
    Publish "GOST/v1.0/Things" "{}" 2 Sample.up Sample.started
    = Returned (tt, w', cs)
    /\ omap isPublish cs = [("GOST/v1.0/Things", 2, false, "{}")].
Proof.
  apply (Publish_never_retains Sample.up Sample.started
           (NewClient (Some Sample.options))).
  reflexivity.
Defined.

(** C5, as the code has it.  [Publish] forwards the message to the
    transport, waits on the token, and returns nothing: the caller gets
    the same from a publish the broker acknowledged and from one that
    failed.  It changes no state and makes no call that starts a
    reconnect or a retry. *)
Theorem Publish_returns_no_result tr w c topic message qos :
  client (self w) = Some c ->
  exists cs,
    Publish topic message qos tr w = Returned (tt, w, cs)
    /\ cs = [CPublish topic qos false message; CTokenWait]
    /\ Forall (fun c => isReconnect c = false) cs
    /\ forall tr', Publish topic message qos tr' w = Publish topic message qos tr w.
Proof.
  intros Hc. eexists. split; [apply (Publish_trace tr w c topic message qos Hc)|].
  split; [reflexivity|]. split; [repeat constructor|].
  intros tr'. rewrite !(Publish_trace _ w c topic message qos Hc). reflexivity.
Qed.

Lemma Publish_returns_no_result_witness :
  exists cs,
    Publish "GOST/v1.0/Things" "{}" 1 Sample.down Sample.started
    = Returned (tt, Sample.started, cs)
    /\ Forall (fun c => isReconnect c = false) cs.
Proof.
  destruct (Publish_returns_no_result Sample.down Sample.started
              (NewClient (Some Sample.options)) "GOST/v1.0/Things" "{}" 1
              eq_refl) as (cs & Hrun & _ & Hno & _).
  exists cs. split; [exact Hrun | exact Hno].
Defined.

(** C5, as stated, fails: against the broker [down] the publish token
    carries an error, against [up] it carries none, and [Publish] gives
    its caller the same in both cases, so no success or failure result
    reaches the caller. *)
Lemma Publish_failure_not_surfaced :
  tok_Error (PublishAnswer Sample.down) = Some "not Connected"
  /\ tok_Error (PublishAnswer Sample.up) = None
  /\ Publish "GOST/v1.0/Things" "{}" 1 Sample.down Sample.started
     = Publish "GOST/v1.0/Things" "{}" 1 Sample.up Sample.started
  /\ ~ (forall tr tr',
          Publish "GOST/v1.0/Things" "{}" 1 tr Sample.started
          = Publish "GOST/v1.0/Things" "{}" 1 tr' Sample.started ->
          tok_Error (PublishAnswer tr) = tok_Error (PublishAnswer tr')).
Proof.
  split; [reflexivity|]. split; [reflexivity|]. split; [reflexivity|].
  intros H. specialize (H Sample.down Sample.up eq_refl). discriminate H.
Qed.

(** ** The reconnect ticker *)

Lemma active_NewTicker m m' ts :
  active {| self := m; tickers := ts ++ [true] |}
  = S (active {| self := m'; tickers := ts |}).
Proof.
  unfold active. cbn [tickers]. rewrite filter_app, length_app. cbn.
  rewrite decide_True by reflexivity. cbn. lia.
Qed.

(** [retryConnect] has no test of its own: it sets [connecting] and starts
    a new ticker whether or not one is running. *)
Lemma retryConnect_trace tr w :
  retryConnect tr w
  = Returned
      (tt,
       {| self := set_connecting true (self w); tickers := tickers w ++ [true] |},
       [CLog LInfo "MQTT client starting reconnect procedure in background" [];
        CNewTicker (Second * 5);
        CGo (GoTickerLoop (length (tickers w)))]).
Proof. reflexivity. Qed.

(** A connect attempt that succeeds: the token is kept, nothing else. *)
Lemma connect_succeeds tr w c :
  client (self w) = Some c ->
  ct_Error (ConnectAnswer tr) = None ->
  connect tr w
  = Returned
      (tt,
       {| self := set_connectToken (Some (ConnectAnswer tr)) (self w);
          tickers := tickers w |},
       [CConnect; CTokenWait]).
Proof.
  intros Hc He. unfold connect. go_step. rewrite Hc. cbn. rewrite He.
  destruct (ct_Wait (ConnectAnswer tr)); reflexivity.
Qed.

(** A connect attempt that fails while [connecting] is set: the test
    [!m.connecting] keeps [connect] from starting another ticker. *)
Lemma connect_failure_guarded tr w c e :
  client (self w) = Some c ->
  ct_Error (ConnectAnswer tr) = Some e ->
  connecting (self w) = true ->
  connect tr w
  = Returned
      (tt,
       {| self := set_connectToken (Some (ConnectAnswer tr)) (self w);
          tickers := tickers w |},
       [CConnect; CTokenWait]).
Proof.
  intros Hc He Hg. unfold connect. go_step. rewrite Hc. cbn. rewrite He, Hg.
  destruct (ct_Wait (ConnectAnswer tr)); reflexivity.
Qed.


(** Every connect attempt of a constructed client returns, and begins
    with the [Connect] call on the transport. *)
Lemma connect_returns tr w c :
  client (self w) = Some c ->
  exists w' cs,
    connect tr w = Returned (tt, w', CConnect :: cs)
    /\ client (self w') = Some c.
Proof.
  intros Hc. unfold connect. go_step. rewrite Hc. cbn.
  destruct (ct_Wait (ConnectAnswer tr)), (ct_Error (ConnectAnswer tr)),
    (connecting (self w)); cbn; do 2 eexists; (split; [reflexivity|exact Hc]).
Qed.

(** Every tick of a ticker attempts a connect. *)
Lemma tickerBody_connects tr w c ticker :
  client (self w) = Some c ->
  exists w' cs, tickerBody ticker tr w = Returned (tt, w', CConnect :: cs).
Proof.
  intros Hc. destruct (connect_returns tr w c Hc) as (w1 & cs1 & Hrun & Hc1).
  unfold tickerBody. unfold bind at 1. rewrite Hrun.
  go_step. rewrite Hc1. cbn.
  destruct (IsConnectedAnswer tr); cbn; do 2 eexists; reflexivity.
Qed.


(** ** Stop *)

Lemma Stop_trace tr w c :
  client (self w) = Some c ->
  Stop tr w = Returned (tt, w, [CDisconnect 500]).
Proof.
  intros Hc. unfold Stop. go_step. rewrite Hc. reflexivity.
Qed.

(** C3, as the code has it.  [Stop] asks the transport for a graceful
    disconnect with a 500 ms quiesce and does nothing else: the flags and
    the tickers are what they were, so a pending retry timer keeps running,
    and its next tick still attempts a connect. *)
Theorem Stop_only_disconnects tr w c :
  client (self w) = Some c ->
  Stop tr w = Returned (tt, w, [CDisconnect 500])
  /\ forall ticker tr',
       tickers w !! ticker = Some true ->
       exists w' cs,
         run [(tr, EvStop); (tr', EvTick ticker)] w
         = Returned (w', CDisconnect 500 :: CConnect :: cs).
Proof.
  intros Hc. split; [apply (Stop_trace tr w c Hc)|].
  intros ticker tr' Hrun.
  destruct (tickerBody_connects tr' w c ticker Hc) as (w' & cs & Htick).
  exists w', (cs ++ []). cbn [run handle].
  rewrite (Stop_trace tr w c Hc), Hrun, Htick. reflexivity.
Qed.

Lemma Stop_only_disconnects_witness :
  Stop Sample.down Sample.pending
  = Returned (tt, Sample.pending, [CDisconnect 500])
  /\ exists w' cs,
       run [(Sample.down, EvStop); (Sample.up, EvTick 0%nat)] Sample.pending
       = Returned (w', CDisconnect 500 :: CConnect :: cs).
Proof.
  destruct (Stop_only_disconnects Sample.down Sample.pending
              (NewClient (Some Sample.options)) eq_refl) as [Hstop Htick].
  split; [exact Hstop|]. apply Htick. reflexivity.
Defined.

(** C3, as stated, fails: with the first retry ticker pending, [Stop]
    leaves it running and [connecting] set, and the next tick of that
    ticker calls [Connect] on the transport. *)
Lemma Stop_leaves_retry_running :
  active Sample.pending = 1%nat
  /\ ~ (forall w1 cs1,
          Stop Sample.down Sample.pending = Returned (tt, w1, cs1) ->
          active w1 = 0%nat
          /\ connecting (self w1) = false
          /\ forall w2 cs2,
               handle (EvTick 0%nat) Sample.up w1 = Returned (tt, w2, cs2) ->
               CConnect ∉ cs2).
Proof.
  split; [reflexivity|]. intros H.
  destruct (H Sample.pending [CDisconnect 500] eq_refl) as [Hactive _].
  discriminate Hactive.
Qed.

(** ** Construction *)

(** Options are returned only without an error, and then with paho's own
    reconnection switched off and the two handlers of the client set. *)
Lemma initMQTTClientOptions_options env m o err :
  initMQTTClientOptions env m = Returned (Some o, err) ->
  err = None
  /\ AutoReconnect o = false
  /\ OnConnectionLost o = Some mv_connectionLostHandler
  /\ OnConnect o = Some mv_connectHandler.
Proof.
  unfold initMQTTClientOptions. intros H.
  repeat case_match; simplify_eq; repeat split; reflexivity.
Qed.

(** The struct [CreateMQTTClient] returns: the flags are clear, and the
    client is the one built from the options of [initMQTTClientOptions]. *)
Lemma CreateMQTTClient_returned env config m cs :
  CreateMQTTClient env config = Returned (m, cs) ->
  connecting m = false
  /\ disconnected m = false
  /\ exists opts err,
       initMQTTClientOptions env (set_client None m) = Returned (opts, err)
       /\ client m = Some (NewClient opts).
Proof.
  unfold CreateMQTTClient. intros H.
  destruct (initMQTTClientOptions env _) as [[opts err]|] eqn:E; [|discriminate].
  injection H as <- <-. cbn. repeat split. exists opts, err. split; [exact E|reflexivity].
Qed.



(** C6, as the code has it.  With a trust-anchor path configured, a
    failure to load or to parse the trust-anchor file is ignored.  What
    construction reports (whether it returns, whether the client gets
    options, which errors are logged) is the same on any two machines
    that answer alike for the client key pair, whatever they answer for
    the trust anchor; and with no client key pair configured, construction
    returns a client with options, logs no error, and the trust store
    holds what was parsed: nothing, if the file could not be read. *)
Theorem trust_anchor_failure_ignored env config :
  CaCertFile config <> "" ->
  (forall env',
     LoadX509KeyPair env' = LoadX509KeyPair env ->
     ParseCertificate env' = ParseCertificate env ->
     constructionOutcome (CreateMQTTClient env' config)
     = constructionOutcome (CreateMQTTClient env config))
  /\ (ClientCertFile config = "" \/ PrivateKeyFile config = "" ->
      exists m cs o tls,
        CreateMQTTClient env config = Returned (m, cs)
        /\ optionsOf m = Some o
        /\ errorsLogged cs = []
        /\ opt_TLSConfig o = Some tls
        /\ RootCAs tls
           = Some match ReadFile env (CaCertFile config) with
                  | inl pemCerts => fst (AppendCertsFromPEM env NewCertPool pemCerts)
                  | inr _ => NewCertPool
                  end).
Proof.
  intros Hca. split.
  - intros env' Hload Hparse.
    unfold CreateMQTTClient, initMQTTClientOptions. cbn.
    rewrite Hload, Hparse.
    repeat case_match; simplify_eq; reflexivity.
  - intros Hnokey.
    unfold CreateMQTTClient, initMQTTClientOptions. cbn.
    destruct (decide (CaCertFile config ≠ "")) as [_|?]; [|contradiction].
    destruct (decide (ClientCertFile config ≠ "" ∧ PrivateKeyFile config ≠ ""))
      as [[? ?]|_]; [destruct Hnokey; contradiction|].
    do 4 eexists. split; [reflexivity|]. cbn.
    split; [reflexivity|]. split; [reflexivity|]. split; [reflexivity|].
    destruct (ReadFile env (CaCertFile config)); reflexivity.
Qed.

Lemma trust_anchor_failure_ignored_witness :
  CaCertFile Sample.configCA <> ""
  /\ ReadFile Sample.env (CaCertFile Sample.configCA)
     = inr "open ca.pem: no such file or directory"
  /\ exists m cs o tls,
       CreateMQTTClient Sample.env Sample.configCA = Returned (m, cs)
       /\ optionsOf m = Some o
       /\ errorsLogged cs = []
       /\ opt_TLSConfig o = Some tls
       /\ RootCAs tls = Some [].
Proof.
  assert (Hca : CaCertFile Sample.configCA <> "") by discriminate.
  split; [exact Hca|]. split; [reflexivity|].
  destruct (trust_anchor_failure_ignored Sample.env Sample.configCA Hca)
    as [_ Hbuilt].
  apply Hbuilt. left. reflexivity.
Defined.

(** C6, as stated, fails: on a machine where the trust-anchor file cannot
    be read, construction with that path configured is not aborted and
    reports nothing; it returns a client built from options whose trust
    store is empty. *)
Lemma trust_anchor_failure_not_fatal :
  ReadFile Sample.env (CaCertFile Sample.configCA)
  = inr "open ca.pem: no such file or directory"
  /\ ~ (CreateMQTTClient Sample.env Sample.configCA = Panicked
        \/ exists m cs,
             CreateMQTTClient Sample.env Sample.configCA = Returned (m, cs)
             /\ (optionsOf m = None \/ errorsLogged cs <> [])).
Proof.
  split; [reflexivity|].
  intros [H | (m & cs & H & [Hopts | Hlog])].
  - discriminate H.
  - vm_compute in H. injection H as <- <-. discriminate Hopts.
  - vm_compute in H. injection H as <- <-. apply Hlog. reflexivity.
Qed.


(** ** Histories *)

(** C1 does not hold of the code.  [connect] tests [connecting] before it
    starts the retry ticker; the connection-lost handler does not.  After
    a failed [Start] the first ticker runs; its tick connects to a broker
    that drops the connection at once, so the ticker is not stopped; the
    connection-lost callback then starts a second ticker beside it.  When
    the broker is reachable again, each of the two tickers stops itself:
    two disarms for one reconnect, and [connecting] is cleared by the
    first while the second still runs. *)
Theorem connection_loss_starts_second_cycle :
  (exists w cs,
     run [(Sample.down, EvStart Sample.server);
          (Sample.flapping, EvTick 0%nat);
          (Sample.flapping, EvConnectionLost "EOF")] Sample.fresh
     = Returned (w, cs)
     /\ tickers w = [true; true]
     /\ active w = 2%nat)
  /\ (exists w cs,
        run [(Sample.down, EvStart Sample.server);
             (Sample.flapping, EvTick 0%nat);
             (Sample.flapping, EvConnectionLost "EOF");
             (Sample.up, EvTick 0%nat)] Sample.fresh
        = Returned (w, cs)
        /\ connecting (self w) = false
        /\ active w = 1%nat)
  /\ (exists w cs,
        run [(Sample.down, EvStart Sample.server);
             (Sample.flapping, EvTick 0%nat);
             (Sample.flapping, EvConnectionLost "EOF");
             (Sample.up, EvTick 0%nat);
             (Sample.up, EvTick 1%nat)] Sample.fresh
        = Returned (w, cs)
        /\ filter (fun c => isTickerStop c = true) cs
           = [CTickerStop 0; CTickerStop 1]).
Proof.
  split; [|split]; do 2 eexists; (split; [vm_compute; reflexivity|]);
    try split; reflexivity.
Qed.

(** The shortest such history: two connection-lost callbacks in a row
    leave two tickers running. *)
Example two_losses_two_tickers :
  exists w cs,
    run [(Sample.down, EvConnectionLost "EOF");
         (Sample.down, EvConnectionLost "EOF")] Sample.started
    = Returned (w, cs)
    /\ active w = 2%nat.
Proof. do 2 eexists. split; [vm_compute; reflexivity|reflexivity]. Qed.

(** The sample worlds are the ones the sample histories lead to. *)
Example created_is_constructed :
  CreateMQTTClient Sample.env Sample.config
  = Returned (Sample.created,
              [CSetupLogger false; CNewClient (Some Sample.options)]).
Proof. reflexivity. Qed.

Example started_is_reached :
  exists cs,
    run [(Sample.up, EvStart Sample.server)] Sample.fresh
    = Returned (Sample.started, cs).
Proof. eexists. reflexivity. Qed.

Example pending_is_reached :
  exists cs,
    run [(Sample.up, EvStart Sample.server);
         (Sample.up, EvOnConnect);
         (Sample.down, EvConnectionLost "EOF")] Sample.fresh
    = Returned (Sample.pending, cs).
Proof. eexists. vm_compute. reflexivity. Qed.

Example reconnected_is_reached :
  exists cs,
    run [(Sample.resumed, EvTick 0%nat)] Sample.pending
    = Returned (Sample.reconnected, cs).
Proof. eexists. vm_compute. reflexivity. Qed.

(** Persistence on: the first connect subscribes to every topic; after a
    loss and a reconnect on which the broker reports the session present,
    the connect handler subscribes to nothing. *)
Example persistent_session_skips_resubscription :
  exists w1 cs1 w2 cs2,
    run [(Sample.up, EvStart Sample.server); (Sample.up, EvOnConnect)]
        Sample.fresh
    = Returned (w1, cs1)
    /\ subscribeCalls cs1
       = [("GOST/v1.0/Things", 1);
          ("GOST/v1.0/Datastreams(+)/Observations", 1);
          ("GOST/v1.0/Locations", 1)]
    /\ run [(Sample.down, EvConnectionLost "EOF");
            (Sample.resumed, EvTick 0%nat);
            (Sample.resumed, EvOnConnect)] w1
       = Returned (w2, cs2)
    /\ subscribeCalls cs2 = []
    /\ active w2 = 0%nat.
Proof.
  do 4 eexists. split; [vm_compute; reflexivity|]. split; [reflexivity|].
  split; [vm_compute; reflexivity|]. split; reflexivity.
Qed.

(** Persistence on, but the broker lost the session: the connect handler
    subscribes to every topic again. *)
Example lost_session_resubscribes :
  exists w cs,
    run [(Sample.down, EvConnectionLost "EOF");
         (Sample.up, EvTick 0%nat);
         (Sample.up, EvOnConnect)] Sample.started
    = Returned (w, cs)
    /\ subscribeCalls cs
       = [("GOST/v1.0/Things", 1);
          ("GOST/v1.0/Datastreams(+)/Observations", 1);
          ("GOST/v1.0/Locations", 1)].
Proof. do 2 eexists. split; [vm_compute; reflexivity|reflexivity]. Qed.

(** * Further properties of the package *)

(** ** Construction: what the options carry *)

(** The struct [CreateMQTTClient] returns has the configured values. *)
Lemma CreateMQTTClient_fields env config m cs :
  CreateMQTTClient env config = Returned (m, cs) ->
  host m = Host config /\ port m = Port config /\ prefix m = Prefix config
  /\ clientID m = ClientID config /\ sslEnabled m = SSL config
  /\ username m = Username config /\ password m = Password config
  /\ caCertPath m = CaCertFile config
  /\ clientCertPath m = ClientCertFile config
  /\ privateKeyPath m = PrivateKeyFile config
  /\ keepAliveSec m = KeepAliveSec config
  /\ pingTimeoutSec m = PingTimeoutSec config
  /\ subscriptionQos m = SubscriptionQos config
  /\ persistent m = Persistent config /\ order m = Order config
  /\ api m = None /\ connectToken m = None.
Proof.
  unfold CreateMQTTClient. intros H.
  destruct (initMQTTClientOptions env _) as [[opts err]|]; [|discriminate].
  injection H as <- <-. repeat split.
Qed.

(** The options [initMQTTClientOptions] returns, field by field. *)
Lemma initMQTTClientOptions_built env m o err :
  initMQTTClientOptions env m = Returned (Some o, err) ->
  exists tls,
    o = {| Servers := Servers (NewClientOptions env)
                      ++ [getProtocol m +:+ "://" +:+ host m +:+ ":"
                          +:+ pretty (port m)];
           opt_ClientID := clientID m;
           opt_Username := if decide (username m ≠ "") then username m
                           else opt_Username (NewClientOptions env);
           opt_Password := if decide (password m ≠ "") then password m
                           else opt_Password (NewClientOptions env);
           CleanSession := negb (persistent m);
           OrderMatters := order m;
           KeepAlive := seconds (keepAliveSec m);
           PingTimeout := seconds (pingTimeoutSec m);
           opt_TLSConfig := Some tls;
           AutoReconnect := false;
           OnConnect := Some mv_connectHandler;
           OnConnectionLost := Some mv_connectionLostHandler |}.
Proof.
  unfold initMQTTClientOptions.
  match goal with
  | |- match ?k with _ => _ end = _ -> _ => destruct k as [[tls|e]|]
  end; intros H; [|discriminate|discriminate].
  injection H as <- <-. exists tls.
  destruct (decide (username m ≠ "")), (decide (password m ≠ "")); reflexivity.
Qed.

(** The options of a constructed client, field by field, in terms of the
    configuration. *)
Lemma CreateMQTTClient_options env config m cs o :
  CreateMQTTClient env config = Returned (m, cs) ->
  optionsOf m = Some o ->
  exists tls,
    o = {| Servers := Servers (NewClientOptions env)
                      ++ [(if SSL config then "ssl" else "tcp") +:+ "://"
                          +:+ Host config +:+ ":" +:+ pretty (Port config)];
           opt_ClientID := ClientID config;
           opt_Username := if decide (Username config ≠ "") then Username config
                           else opt_Username (NewClientOptions env);
           opt_Password := if decide (Password config ≠ "") then Password config
                           else opt_Password (NewClientOptions env);
           CleanSession := negb (Persistent config);
           OrderMatters := Order config;
           KeepAlive := seconds (KeepAliveSec config);
           PingTimeout := seconds (PingTimeoutSec config);
           opt_TLSConfig := Some tls;
           AutoReconnect := false;
           OnConnect := Some mv_connectHandler;
           OnConnectionLost := Some mv_connectionLostHandler |}.
Proof.
  intros Hcreate Hopts.
  destruct (CreateMQTTClient_fields env config m cs Hcreate)
    as (Hh & Hp & _ & Hid & Hssl & Hu & Hpw & _ & _ & _ & Hk & Hpt & _ & Hpers
        & Hord & _).
  destruct (CreateMQTTClient_returned env config m cs Hcreate)
    as (_ & _ & opts & err & Hinit & Hclient).
  unfold optionsOf in Hopts. rewrite Hclient in Hopts. cbn in Hopts. subst opts.
  destruct (initMQTTClientOptions_built env _ o err Hinit) as (tls & ->).
  exists tls. unfold getProtocol.
  change (sslEnabled (set_client None m)) with (sslEnabled m).
  change (host (set_client None m)) with (host m).
  change (port (set_client None m)) with (port m).
  change (clientID (set_client None m)) with (clientID m).
  change (username (set_client None m)) with (username m).
  change (password (set_client None m)) with (password m).
  change (persistent (set_client None m)) with (persistent m).
  change (order (set_client None m)) with (order m).
  change (keepAliveSec (set_client None m)) with (keepAliveSec m).
  change (pingTimeoutSec (set_client None m)) with (pingTimeoutSec m).
  rewrite Hh, Hp, Hid, Hssl, Hu, Hpw, Hk, Hpt, Hpers, Hord. reflexivity.
Qed.



(** X2. Credentials are set only when configured: an empty user name or
    password leaves paho's own value in the options, a non-empty one
    replaces it. *)
Theorem credentials_only_when_configured env config m cs o :
  CreateMQTTClient env config = Returned (m, cs) ->
  optionsOf m = Some o ->
  opt_Username o
  = (if decide (Username config = "") then opt_Username (NewClientOptions env)
     else Username config)
  /\ opt_Password o
     = (if decide (Password config = "") then opt_Password (NewClientOptions env)
        else Password config).
Proof.
  intros Hcreate Hopts.
  destruct (CreateMQTTClient_options env config m cs o Hcreate Hopts)
    as (tls & ->).
  cbn [opt_Username opt_Password].
  destruct (decide (Username config = "")), (decide (Password config = ""));
    destruct (decide (Username config ≠ "")), (decide (Password config ≠ ""));
    split; try reflexivity; contradiction.
Qed.

Lemma credentials_only_when_configured_witness :
  opt_Username Sample.options = "" /\ opt_Password Sample.options = "".
Proof.
  apply (credentials_only_when_configured Sample.env Sample.config
           Sample.created
           [CSetupLogger false; CNewClient (Some Sample.options)]
           Sample.options eq_refl eq_refl).
Defined.

(** ** Construction: TLS material *)

(** X3. A key pair of which only one file is configured is ignored: the
    key-pair loader is never consulted, so construction gives the same on
    any two machines that differ only in what loading and parsing a key
    pair would answer; it returns a client with options, logs no error,
    and the TLS configuration holds no client certificate. *)
Theorem half_configured_keypair_ignored env config :
  ClientCertFile config = "" \/ PrivateKeyFile config = "" ->
  (forall env',
     ReadFile env' = ReadFile env ->
     AppendCertsFromPEM env' = AppendCertsFromPEM env ->
     NewClientOptions env' = NewClientOptions env ->
     CreateMQTTClient env' config = CreateMQTTClient env config)
  /\ exists m cs o tls,
       CreateMQTTClient env config = Returned (m, cs)
       /\ optionsOf m = Some o
       /\ errorsLogged cs = []
       /\ opt_TLSConfig o = Some tls
       /\ Certificates tls = [].
Proof.
  intros Hhalf.
  assert (Hno : ~ (ClientCertFile config ≠ "" ∧ PrivateKeyFile config ≠ ""))
    by (intros [? ?]; destruct Hhalf; contradiction).
  split.
  - intros env' Hread Happend Hdefaults.
    unfold CreateMQTTClient, initMQTTClientOptions. cbn.
    rewrite Hread, Happend, Hdefaults.
    destruct (decide (ClientCertFile config ≠ "" ∧ PrivateKeyFile config ≠ ""));
      [contradiction|reflexivity].
  - unfold CreateMQTTClient, initMQTTClientOptions. cbn.
    destruct (decide (ClientCertFile config ≠ "" ∧ PrivateKeyFile config ≠ ""));
      [contradiction|].
    do 4 eexists. split; [reflexivity|]. cbn.
    split; [reflexivity|]. split; [reflexivity|]. split; [reflexivity|].
    destruct (decide (CaCertFile config ≠ "")); [|reflexivity].
    destruct (ReadFile env (CaCertFile config)); reflexivity.
Qed.

Lemma half_configured_keypair_ignored_witness :
  exists m cs o tls,
    CreateMQTTClient Sample.envTLS Sample.configHalfKeyPair = Returned (m, cs)
    /\ optionsOf m = Some o
    /\ errorsLogged cs = []
    /\ opt_TLSConfig o = Some tls
    /\ Certificates tls = [].
Proof.
  apply (half_configured_keypair_ignored Sample.envTLS Sample.configHalfKeyPair).
  right. reflexivity.
Defined.

(** X4. [initMQTTClientOptions] returns options or an error, never both
    and never neither; an error is one of its two key-pair errors; it
    panics only on a key pair that loaded with an empty certificate
    chain. *)
Theorem initMQTTClientOptions_options_xor_error env m :
  match initMQTTClientOptions env m with
  | Returned (Some _, None) => True
  | Returned (None, Some err) =>
      exists e,
        err = "error loading client keypair: " +:+ e
        \/ err = "error parsing client certificate: " +:+ e
  | Returned _ => False
  | Panicked =>
      exists cert,
        LoadX509KeyPair env (clientCertPath m) (privateKeyPath m) = inl cert
        /\ Certificate cert = []
  end.
Proof.
  unfold initMQTTClientOptions.
  destruct (decide (clientCertPath m ≠ "" ∧ privateKeyPath m ≠ "")); [|exact I].
  destruct (LoadX509KeyPair env (clientCertPath m) (privateKeyPath m))
    as [cert|e] eqn:Hload; [|exists e; left; reflexivity].
  destruct (Certificate cert) as [|der rest] eqn:Hchain;
    [exists cert; split; [reflexivity|exact Hchain]|].
  destruct (ParseCertificate env der) as [leaf|e];
    [exact I|exists e; right; reflexivity].
Qed.

(** X5. A key pair that loads and whose first certificate parses ends up
    in the TLS configuration as the one client certificate, with the
    parsed certificate as its leaf; construction returns a client with
    options and logs no error. *)
Theorem keypair_loaded_into_tls env config cert der rest leaf :
  ClientCertFile config <> "" ->
  PrivateKeyFile config <> "" ->
  LoadX509KeyPair env (ClientCertFile config) (PrivateKeyFile config) = inl cert ->
  Certificate cert = der :: rest ->
  ParseCertificate env der = inl leaf ->
  exists m cs o tls,
    CreateMQTTClient env config = Returned (m, cs)
    /\ optionsOf m = Some o
    /\ errorsLogged cs = []
    /\ opt_TLSConfig o = Some tls
    /\ Certificates tls = [{| Certificate := der :: rest; Leaf := Some leaf |}].
Proof.
  intros Hc Hk Hload Hchain Hparse.
  unfold CreateMQTTClient, initMQTTClientOptions. cbn.
  destruct (decide (ClientCertFile config ≠ "" ∧ PrivateKeyFile config ≠ ""))
    as [_|Hno]; [|exfalso; apply Hno; split; assumption].
  rewrite Hload, Hchain, Hparse.
  do 4 eexists. split; [reflexivity|]. cbn.
  split; [reflexivity|]. split; [reflexivity|]. split; reflexivity.
Qed.

Lemma keypair_loaded_into_tls_witness :
  exists m cs o tls,
    CreateMQTTClient Sample.envTLS Sample.configTLS = Returned (m, cs)
    /\ optionsOf m = Some o
    /\ errorsLogged cs = []
    /\ opt_TLSConfig o = Some tls
    /\ Certificates tls
       = [{| Certificate := [[Byte.x30; Byte.x82]]; Leaf := Some "CN=gost" |}].
Proof.
  apply (keypair_loaded_into_tls Sample.envTLS Sample.configTLS
           {| Certificate := [[Byte.x30; Byte.x82]]; Leaf := None |}
           [Byte.x30; Byte.x82] [] "CN=gost");
    first [discriminate | reflexivity].
Defined.

(** X6. The TLS configuration does not depend on the SSL switch: it is
    determined by the three file paths alone, so the trust anchor and the
    key pair are loaded for a [tcp] broker as well; and the trust store is
    nil exactly when no trust-anchor path is configured. *)
Theorem tls_material_independent_of_ssl env m1 m2 o1 o2 :
  caCertPath m1 = caCertPath m2 ->
  clientCertPath m1 = clientCertPath m2 ->
  privateKeyPath m1 = privateKeyPath m2 ->
  initMQTTClientOptions env m1 = Returned (Some o1, None) ->
  initMQTTClientOptions env m2 = Returned (Some o2, None) ->
  opt_TLSConfig o1 = opt_TLSConfig o2
  /\ exists tls,
       opt_TLSConfig o1 = Some tls
       /\ (RootCAs tls = None <-> caCertPath m1 = "").
Proof.
  unfold initMQTTClientOptions. intros Hca Hcert Hkey.
  rewrite <- Hca, <- Hcert, <- Hkey.
  destruct (decide (clientCertPath m1 ≠ "" ∧ privateKeyPath m1 ≠ "")).
  - destruct (LoadX509KeyPair env (clientCertPath m1) (privateKeyPath m1))
      as [cert|e]; [|discriminate].
    destruct (Certificate cert) as [|der rest]; [discriminate|].
    destruct (ParseCertificate env der) as [leaf|e]; [|discriminate].
    intros [= <-] [= <-]. cbn. split; [reflexivity|].
    eexists. split; [reflexivity|]. cbn.
    destruct (decide (caCertPath m1 ≠ "")) as [Hset|Hunset].
    + destruct (ReadFile env (caCertPath m1)); cbn; split; intros; congruence.
    + cbn. split; [intros _|reflexivity].
      destruct (decide (caCertPath m1 = "")); [assumption|contradiction].
  - intros [= <-] [= <-]. cbn. split; [reflexivity|].
    eexists. split; [reflexivity|].
    destruct (decide (caCertPath m1 ≠ "")) as [Hset|Hunset].
    + destruct (ReadFile env (caCertPath m1)); cbn; split; intros; congruence.
    + cbn. split; [intros _|reflexivity].
      destruct (decide (caCertPath m1 = "")); [assumption|contradiction].
Qed.

Lemma tls_material_independent_of_ssl_witness :
  exists o1 o2,
    initMQTTClientOptions Sample.envTLS (Sample.clientTLS false)
    = Returned (Some o1, None)
    /\ initMQTTClientOptions Sample.envTLS (Sample.clientTLS true)
       = Returned (Some o2, None)
    /\ Servers o1 = ["tcp://broker:1883"]
    /\ Servers o2 = ["ssl://broker:1883"]
    /\ opt_TLSConfig o1 = opt_TLSConfig o2.
Proof.
  do 2 eexists. split; [reflexivity|]. split; [reflexivity|].
  split; [reflexivity|]. split; [reflexivity|].
  eapply proj1.
  apply (tls_material_independent_of_ssl Sample.envTLS
           (Sample.clientTLS false) (Sample.clientTLS true));
    reflexivity.
Defined.

(** ** Construction: durations *)



(** ** The running client: what each step does *)

(** A connect attempt keeps the client, the API and [disconnected], leaves
    its token in the struct, and either starts no ticker or starts one
    and sets [connecting]. *)
Lemma connect_effect tr w c :
  client (self w) = Some c ->
  exists w' cs,
    connect tr w = Returned (tt, w', cs)
    /\ client (self w') = Some c
    /\ api (self w') = api (self w)
    /\ connectToken (self w') = Some (ConnectAnswer tr)
    /\ disconnected (self w') = disconnected (self w)
    /\ ((tickers w' = tickers w /\ connecting (self w') = connecting (self w))
        \/ (tickers w' = tickers w ++ [true] /\ connecting (self w') = true)).
Proof.
  intros Hc. unfold connect. go_step. rewrite Hc. cbn.
  destruct (ct_Wait (ConnectAnswer tr)), (ct_Error (ConnectAnswer tr)),
    (connecting (self w)) eqn:Hg; cbn; do 2 eexists;
    (split; [reflexivity|]); cbn; rewrite ?Hg; repeat split; auto.
Qed.

(** One tick keeps the client, the API and [disconnected] and leaves the
    token of its connect attempt; if the client is connected afterwards
    it clears [connecting], otherwise [connecting] is set whenever the
    tick started a ticker. *)
Lemma tickerBody_effect tr w c ticker :
  client (self w) = Some c ->
  exists w' cs,
    tickerBody ticker tr w = Returned (tt, w', cs)
    /\ client (self w') = Some c
    /\ api (self w') = api (self w)
    /\ connectToken (self w') = Some (ConnectAnswer tr)
    /\ disconnected (self w') = disconnected (self w)
    /\ (length (tickers w) <= length (tickers w'))%nat
    /\ ((connecting (self w) = true -> 1 <= active w)%nat ->
        (connecting (self w') = true -> 1 <= active w')%nat).
Proof.
  intros Hc.
  destruct (connect_effect tr w c Hc)
    as (w1 & cs1 & Hrun & Hc1 & Ha1 & Ht1 & Hd1 & Hcases).
  unfold tickerBody. unfold bind at 1. rewrite Hrun.
  go_step. rewrite Hc1. cbn.
  destruct (IsConnectedAnswer tr); cbn; do 2 eexists;
    (split; [reflexivity|]); cbn.
  - repeat split; auto.
    + rewrite length_insert.
      destruct Hcases as [[-> _]|[-> _]]; rewrite ?length_app; cbn; lia.
    + intros _ Habs. discriminate Habs.
  - repeat split; auto.
    + destruct Hcases as [[-> _]|[-> _]]; rewrite ?length_app; cbn; lia.
    + intros Hinv Hg.
      destruct Hcases as [[Hts Hsame]|[Hts _]].
      * rewrite Hsame in Hg. specialize (Hinv Hg).
        unfold active in *. rewrite Hts. exact Hinv.
      * destruct w1 as [m1 ts1]. cbn in Hts. subst ts1.
        rewrite (active_NewTicker m1 (self w) (tickers w)). lia.
Qed.

(** What one event does to a ready client: it is handled without a panic
    and leaves the client ready; [disconnected] is set by a connection
    loss, cleared by a connect, and kept by everything else; no ticker is
    forgotten; and [connecting] is never left set without a running
    ticker. *)
Lemma handle_effect e tr w :
  ready w ->
  exists w' cs,
    handle e tr w = Returned (tt, w', cs)
    /\ ready w'
    /\ disconnected (self w')
       = match e with
         | EvConnectionLost _ => true
         | EvOnConnect => false
         | _ => disconnected (self w)
         end
    /\ (length (tickers w) <= length (tickers w'))%nat
    /\ ((connecting (self w) = true -> 1 <= active w)%nat ->
        (connecting (self w') = true -> 1 <= active w')%nat).
Proof.
  intros ((c & o & Hc & Ho & Hon & Hlost) & [a Ha] & [t Ht]).
  assert (Hready : ready w)
    by (split; [exists c, o; auto|split; [exists a|exists t]; assumption]).
  destruct e as [a'| |topic message qos| |err|ticker].
  - (* Start *)
    destruct (connect_effect tr
                {| self := set_api (Some a') (self w); tickers := tickers w |}
                c Hc)
      as (w1 & cs1 & Hrun & Hc1 & Ha1 & Ht1 & Hd1 & Hcases).
    cbn [handle]. unfold Start. go_step. rewrite Hrun.
    do 2 eexists. split; [reflexivity|].
    split; [|split; [exact Hd1|split]].
    + split; [exists c, o; auto|]. rewrite Ha1, Ht1. split; eexists; reflexivity.
    + destruct Hcases as [[-> _]|[-> _]]; cbn; rewrite ?length_app; cbn; lia.
    + intros Hinv Hg. destruct Hcases as [[Hts Hsame]|[Hts _]].
      * rewrite Hsame in Hg. specialize (Hinv Hg).
        unfold active in *. rewrite Hts. exact Hinv.
      * destruct w1 as [m1 ts1]. cbn in Hts. subst ts1.
        rewrite (active_NewTicker m1 (self w) (tickers w)). lia.
  - (* Stop *)
    cbn [handle]. rewrite (Stop_trace tr w c Hc).
    do 2 eexists. split; [reflexivity|].
    split; [exact Hready|]. split; [reflexivity|]. split; [lia|auto].
  - (* Publish *)
    cbn [handle]. rewrite (Publish_trace tr w c topic message qos Hc).
    do 2 eexists. split; [reflexivity|].
    split; [exact Hready|]. split; [reflexivity|]. split; [lia|auto].
  - (* the connect callback *)
    cbn [handle]. unfold bind at 1. unfold getm. unfold optionsOf.
    rewrite Hc, Ho, Hon. cbn [runOnConnect].
    rewrite (connectHandler_trace tr w a c t Ha Hc Ht).
    do 2 eexists. split; [reflexivity|]. cbn [self tickers].
    split; [|split; [reflexivity|split; [lia|]]].
    + split; [exists c, o; auto|].
      split; [exists a|exists t]; assumption.
    + intros Hinv Hg. apply Hinv. exact Hg.
  - (* the connection-lost callback *)
    cbn [handle]. unfold bind at 1. unfold getm. unfold optionsOf.
    rewrite Hc, Ho, Hlost. cbn [runConnectionLost].
    unfold connectionLostHandler, retryConnect. go_step.
    do 2 eexists. split; [reflexivity|]. cbn [self tickers].
    split; [|split; [reflexivity|split]].
    + split; [exists c, o; auto|].
      split; [exists a|exists t]; assumption.
    + rewrite length_app. cbn. lia.
    + intros _ _. destruct w as [m ts]. cbn [self tickers].
      rewrite (active_NewTicker _ m ts). lia.
  - (* a tick *)
    cbn [handle].
    destruct (tickers w !! ticker) as [[|]|].
    + destruct (tickerBody_effect tr w c ticker Hc)
        as (w1 & cs1 & Hrun & Hc1 & Ha1 & Ht1 & Hd1 & Hlen & Hinv).
      rewrite Hrun. do 2 eexists. split; [reflexivity|].
      split; [|split; [exact Hd1|split; [exact Hlen|exact Hinv]]].
      split; [exists c, o; auto|]. rewrite Ha1, Ht1.
      split; [exists a; assumption|eexists; reflexivity].
    + do 2 eexists. split; [reflexivity|].
      split; [exact Hready|]. split; [reflexivity|]. split; [lia|auto].
    + do 2 eexists. split; [reflexivity|].
      split; [exact Hready|]. split; [reflexivity|]. split; [lia|auto].
Qed.

(** A history on a ready client. *)
Lemma run_effect history :
  forall w,
    ready w ->
    exists w' cs,
      run history w = Returned (w', cs)
      /\ ready w'
      /\ disconnected (self w') = lostSinceConnect history (disconnected (self w))
      /\ (length (tickers w) <= length (tickers w'))%nat
      /\ ((connecting (self w) = true -> 1 <= active w)%nat ->
          (connecting (self w') = true -> 1 <= active w')%nat).
Proof.
  induction history as [|[tr e] rest IH]; intros w Hready.
  - exists w, []. split; [reflexivity|]. split; [exact Hready|].
    split; [reflexivity|]. split; [lia|auto].
  - destruct (handle_effect e tr w Hready)
      as (w1 & cs1 & Hrun & Hready1 & Hd1 & Hlen1 & Hinv1).
    destruct (IH w1 Hready1) as (w2 & cs2 & Hrest & Hready2 & Hd2 & Hlen2 & Hinv2).
    exists w2, (cs1 ++ cs2). cbn [run]. rewrite Hrun, Hrest.
    split; [reflexivity|]. split; [exact Hready2|].
    split; [|split; [lia|auto]].
    rewrite Hd2, Hd1. destruct e; reflexivity.
Qed.

(** The two shapes of the world after a connect attempt. *)
Lemma connect_shape tr w c :
  client (self w) = Some c ->
  exists cs,
    subscribeCalls cs = []
    /\ (connect tr w
        = Returned
            (tt,
             {| self := set_connectToken (Some (ConnectAnswer tr)) (self w);
                tickers := tickers w |},
             cs)
        \/ (connecting (self w) = false
            /\ connect tr w
               = Returned
                   (tt,
                    {| self := set_connecting true
                                 (set_connectToken (Some (ConnectAnswer tr))
                                                   (self w));
                       tickers := tickers w ++ [true] |},
                    cs))).
Proof.
  intros Hc. unfold connect. go_step. rewrite Hc. cbn.
  destruct (ct_Wait (ConnectAnswer tr)), (ct_Error (ConnectAnswer tr)),
    (connecting (self w)); cbn; eexists;
    (split; [|first [left; reflexivity | right; split; reflexivity]]);
    reflexivity.
Qed.

(** While [connecting] is set a connect attempt starts nothing, whatever
    the broker answers. *)
Lemma connect_while_connecting tr w c :
  client (self w) = Some c ->
  connecting (self w) = true ->
  connect tr w
  = Returned
      (tt,
       {| self := set_connectToken (Some (ConnectAnswer tr)) (self w);
          tickers := tickers w |},
       [CConnect; CTokenWait]).
Proof.
  intros Hc Hg. unfold connect. go_step. rewrite Hc. cbn. rewrite Hg.
  destruct (ct_Wait (ConnectAnswer tr)), (ct_Error (ConnectAnswer tr));
    reflexivity.
Qed.

(** The connect callback of a ready client runs the connect handler. *)
Lemma handle_OnConnect tr w c o a token :
  client (self w) = Some c ->
  paho_options c = Some o ->
  OnConnect o = Some mv_connectHandler ->
  api (self w) = Some a ->
  connectToken (self w) = Some token ->
  handle EvOnConnect tr w
  = Returned
      (tt,
       {| self := set_disconnected false (self w); tickers := tickers w |},
       [CLog LInfo "MQTT client connected" [];
        CLog LInfo "MQTT Session present: %v" [fmt_bool (ct_SessionPresent token)]]
       ++ (if negb (disconnected (self w))
              || (disconnected (self w) && negb (persistent (self w)))
              || negb (ct_SessionPresent token)
           then loopTrace tr (subscriptionQos (self w)) 0
                          (GetTopics a (prefix (self w)))
           else [])).
Proof.
  intros Hc Ho Hon Ha Ht.
  cbn [handle]. unfold bind at 1. unfold getm. unfold optionsOf.
  rewrite Hc, Ho, Hon. cbn [runOnConnect].
  rewrite (connectHandler_trace tr w a c token Ha Hc Ht).
  rewrite app_nil_l. reflexivity.
Qed.

(** What a constructed client with options is: wired up, flags clear. *)
Lemma CreateMQTTClient_wired env config m cs o :
  CreateMQTTClient env config = Returned (m, cs) ->
  optionsOf m = Some o ->
  client m = Some (NewClient (Some o))
  /\ OnConnect o = Some mv_connectHandler
  /\ OnConnectionLost o = Some mv_connectionLostHandler
  /\ connecting m = false
  /\ disconnected m = false.
Proof.
  intros Hcreate Hopts.
  destruct (CreateMQTTClient_returned env config m cs Hcreate)
    as (Hconn & Hdisc & opts & err & Hinit & Hclient).
  unfold optionsOf in Hopts. rewrite Hclient in Hopts. cbn in Hopts. subst opts.
  destruct (initMQTTClientOptions_options env _ o err Hinit)
    as (_ & _ & Hlost & Hon).
  repeat split; assumption.
Qed.

(** [Start] on a wired client returns and leaves it ready. *)
Lemma Start_ready tr w c o a :
  client (self w) = Some c ->
  paho_options c = Some o ->
  OnConnect o = Some mv_connectHandler ->
  OnConnectionLost o = Some mv_connectionLostHandler ->
  exists w' cs,
    handle (EvStart a) tr w = Returned (tt, w', cs)
    /\ ready w'
    /\ client (self w') = Some c
    /\ api (self w') = Some a
    /\ connectToken (self w') = Some (ConnectAnswer tr)
    /\ disconnected (self w') = disconnected (self w)
    /\ persistent (self w') = persistent (self w)
    /\ prefix (self w') = prefix (self w)
    /\ subscriptionQos (self w') = subscriptionQos (self w)
    /\ ((connecting (self w) = true -> 1 <= active w)%nat ->
        (connecting (self w') = true -> 1 <= active w')%nat).
Proof.
  intros Hc Ho Hon Hlost.
  destruct (connect_shape tr
              {| self := set_api (Some a) (self w); tickers := tickers w |}
              c Hc) as (cs & _ & [Hrun|[Hg Hrun]]).
  - cbn [handle]. unfold Start. go_step. rewrite Hrun.
    do 2 eexists. split; [reflexivity|]. cbn [self tickers].
    split; [split; [exists c, o; auto|split; eexists; reflexivity]|].
    repeat split; auto.
  - cbn [handle]. unfold Start. go_step. rewrite Hrun.
    do 2 eexists. split; [reflexivity|]. cbn [self tickers].
    split; [split; [exists c, o; auto|split; eexists; reflexivity]|].
    repeat split; auto.
    intros _ _. destruct w as [m ts]. cbn [self tickers].
    rewrite (active_NewTicker _ m ts). lia.
Qed.

(** ** The running client: properties of histories *)

(** X8. Once [Start] has run on a constructed client, nothing that
    happens to it panics: every history of calls, callbacks and ticks
    that begins with [Start] is handled to its end. *)
Theorem no_panic_after_Start env config m cs0 o a tr history ts :
  CreateMQTTClient env config = Returned (m, cs0) ->
  optionsOf m = Some o ->
  exists w' cs,
    run ((tr, EvStart a) :: history) {| self := m; tickers := ts |}
    = Returned (w', cs).
Proof.
  intros Hcreate Hopts.
  destruct (CreateMQTTClient_wired env config m cs0 o Hcreate Hopts)
    as (Hc & Hon & Hlost & _).
  destruct (Start_ready tr {| self := m; tickers := ts |}
              (NewClient (Some o)) o a Hc eq_refl Hon Hlost)
    as (w1 & cs1 & Hstart & Hready & _).
  destruct (run_effect history w1 Hready) as (w2 & cs2 & Hrest & _).
  exists w2, (cs1 ++ cs2). cbn [run]. rewrite Hstart, Hrest. reflexivity.
Qed.

Lemma no_panic_after_Start_witness :
  exists w' cs,
    run [(Sample.down, EvStart Sample.server);
         (Sample.flapping, EvTick 0%nat);
         (Sample.flapping, EvConnectionLost "EOF");
         (Sample.up, EvPublish "GOST/v1.0/Things" "{}" 1);
         (Sample.up, EvTick 1%nat);
         (Sample.up, EvOnConnect);
         (Sample.up, EvStop)] Sample.fresh
    = Returned (w', cs).
Proof.
  apply (no_panic_after_Start Sample.env Sample.config Sample.created
           [CSetupLogger false; CNewClient (Some Sample.options)]
           Sample.options);
    reflexivity.
Defined.

(** X9. The flag [disconnected] records exactly whether the last callback
    the transport made was a connection loss rather than a connect: after
    any history on a ready client it is true if a connection-lost callback
    came after the last connect callback, false if a connect callback came
    last, and unchanged if there was neither; calls and ticks do not touch
    it. *)
Theorem disconnected_tracks_callbacks history w :
  ready w ->
  exists w' cs,
    run history w = Returned (w', cs)
    /\ disconnected (self w')
       = lostSinceConnect history (disconnected (self w)).
Proof.
  intros Hready.
  destruct (run_effect history w Hready) as (w' & cs & Hrun & _ & Hd & _).
  exists w', cs. split; assumption.
Qed.

Lemma disconnected_tracks_callbacks_witness :
  exists w' cs,
    run [(Sample.down, EvConnectionLost "EOF");
         (Sample.down, EvTick 0%nat);
         (Sample.up, EvTick 0%nat)] Sample.started
    = Returned (w', cs)
    /\ disconnected (self w') = true.
Proof.
  apply (disconnected_tracks_callbacks
           [(Sample.down, EvConnectionLost "EOF");
            (Sample.down, EvTick 0%nat);
            (Sample.up, EvTick 0%nat)] Sample.started).
  split; [exists (NewClient (Some Sample.options)), Sample.options;
          repeat split; reflexivity|].
  split; eexists; reflexivity.
Defined.

(** X10. [connecting] is never left set without a retry ticker running:
    after any history that begins with [Start] on a constructed client,
    if the flag is set then at least one ticker is running, so the test
    in [connect] never holds a retry back with no retry under way. *)
Theorem connecting_never_without_ticker env config m cs0 o a tr history :
  CreateMQTTClient env config = Returned (m, cs0) ->
  optionsOf m = Some o ->
  exists w' cs,
    run ((tr, EvStart a) :: history) {| self := m; tickers := [] |}
    = Returned (w', cs)
    /\ (connecting (self w') = true -> (1 <= active w')%nat).
Proof.
  intros Hcreate Hopts.
  destruct (CreateMQTTClient_wired env config m cs0 o Hcreate Hopts)
    as (Hc & Hon & Hlost & Hconn & _).
  destruct (Start_ready tr {| self := m; tickers := [] |}
              (NewClient (Some o)) o a Hc eq_refl Hon Hlost)
    as (w1 & cs1 & Hstart & Hready & _ & _ & _ & _ & _ & _ & _ & Hinv1).
  destruct (run_effect history w1 Hready)
    as (w2 & cs2 & Hrest & _ & _ & _ & Hinv2).
  exists w2, (cs1 ++ cs2). cbn [run]. rewrite Hstart, Hrest.
  split; [reflexivity|]. apply Hinv2, Hinv1.
  cbn [self]. rewrite Hconn. discriminate.
Qed.

Lemma connecting_never_without_ticker_witness :
  exists w' cs,
    run [(Sample.down, EvStart Sample.server);
         (Sample.flapping, EvTick 0%nat);
         (Sample.flapping, EvConnectionLost "EOF");
         (Sample.up, EvTick 1%nat)] Sample.fresh
    = Returned (w', cs)
    /\ (connecting (self w') = true -> (1 <= active w')%nat).
Proof.
  apply (connecting_never_without_ticker Sample.env Sample.config
           Sample.created
           [CSetupLogger false; CNewClient (Some Sample.options)]
           Sample.options);
    reflexivity.
Defined.

(** ** The retry ticker, tick by tick *)

(** A tick that finds the client still not connected, while [connecting]
    is set: one connect attempt, nothing started, nothing stopped. *)
Lemma failed_tick tr w c ticker :
  client (self w) = Some c ->
  tickers w !! ticker = Some true ->
  connecting (self w) = true ->
  IsConnectedAnswer tr = false ->
  handle (EvTick ticker) tr w
  = Returned
      (tt,
       {| self := set_connectToken (Some (ConnectAnswer tr)) (self w);
          tickers := tickers w |},
       [CConnect; CTokenWait; CIsConnected]).
Proof.
  intros Hc Hrun Hg Hdown. cbn [handle]. rewrite Hrun.
  unfold tickerBody. unfold bind at 1.
  rewrite (connect_while_connecting tr w c Hc Hg).
  go_step. rewrite Hc. cbn. rewrite Hdown. reflexivity.
Qed.

(** X11. The retry never gives up: as long as the client is not
    connected when asked, every tick of a running ticker makes one
    connect attempt and leaves the ticker running, however many ticks
    there are and whatever the connect attempts answer. *)
Theorem failed_ticks_keep_retrying tr c ticker n :
  forall w,
    client (self w) = Some c ->
    tickers w !! ticker = Some true ->
    connecting (self w) = true ->
    IsConnectedAnswer tr = false ->
    exists w' cs,
      run (replicate n (tr, EvTick ticker)) w = Returned (w', cs)
      /\ tickers w' = tickers w
      /\ connecting (self w') = true
      /\ connectAttempts cs = n
      /\ Forall (fun c => isTickerStop c = false) cs.
Proof.
  induction n as [|n IH]; intros w Hc Hrun Hg Hdown.
  - exists w, []. repeat split; auto.
  - destruct (IH {| self := set_connectToken (Some (ConnectAnswer tr)) (self w);
                    tickers := tickers w |} Hc Hrun Hg Hdown)
      as (w' & cs & Hrest & Hts & Hg' & Hn & Hstop).
    exists w', ([CConnect; CTokenWait; CIsConnected] ++ cs).
    cbn [replicate run].
    rewrite (failed_tick tr w c ticker Hc Hrun Hg Hdown), Hrest.
    split; [reflexivity|]. split; [exact Hts|]. split; [exact Hg'|].
    split.
    + unfold connectAttempts in *. rewrite filter_app, length_app, Hn.
      reflexivity.
    + repeat constructor. exact Hstop.
Qed.

Lemma failed_ticks_keep_retrying_witness :
  exists w' cs,
    run (replicate 100 (Sample.down, EvTick 0%nat)) Sample.pending
    = Returned (w', cs)
    /\ tickers w' = [true]
    /\ connectAttempts cs = 100%nat.
Proof.
  destruct (failed_ticks_keep_retrying Sample.down
              (NewClient (Some Sample.options)) 0%nat 100 Sample.pending
              eq_refl eq_refl eq_refl eq_refl)
    as (w' & cs & Hrun & Hts & _ & Hn & _).
  exists w', cs. repeat split; assumption.
Defined.

Lemma active_stop_running m m' ts i :
  ts !! i = Some true ->
  S (active {| self := m; tickers := <[i := false]> ts |})
  = active {| self := m'; tickers := ts |}.
Proof.
  unfold active. cbn [tickers]. revert i.
  induction ts as [|b ts IH]; intros [|i] Hi; cbn in Hi; try discriminate.
  - injection Hi as ->. cbn.
    destruct (decide (false = true)); [discriminate|].
    destruct (decide (true = true)); [reflexivity|contradiction].
  - specialize (IH i Hi). cbn.
    destruct (decide (b = true)); cbn [length]; [f_equal|]; exact IH.
Qed.

(** X12. A tick that finds the client connected disarms its own ticker:
    it stops that ticker and no other, clears [connecting], and one retry
    cycle fewer is active; later ticks of the stopped ticker do nothing. *)
Theorem successful_tick_disarms tr w c ticker :
  client (self w) = Some c ->
  tickers w !! ticker = Some true ->
  connecting (self w) = true ->
  IsConnectedAnswer tr = true ->
  exists w' cs,
    handle (EvTick ticker) tr w = Returned (tt, w', cs)
    /\ tickers w' = <[ticker := false]> (tickers w)
    /\ connecting (self w') = false
    /\ S (active w') = active w
    /\ filter (fun c => isTickerStop c = true) cs = [CTickerStop ticker]
    /\ forall tr', handle (EvTick ticker) tr' w' = Returned (tt, w', []).
Proof.
  intros Hc Hrun Hg Hup. cbn [handle]. rewrite Hrun.
  unfold tickerBody. unfold bind at 1.
  rewrite (connect_while_connecting tr w c Hc Hg).
  go_step. rewrite Hc. cbn. rewrite Hup. cbn.
  do 2 eexists. split; [reflexivity|]. cbn [self tickers].
  split; [reflexivity|]. split; [reflexivity|].
  split; [destruct w as [m ts]; apply active_stop_running; exact Hrun|].
  split; [reflexivity|].
  intros tr'. rewrite list_lookup_insert_eq by (eapply lookup_lt_Some; exact Hrun).
  reflexivity.
Qed.

Lemma successful_tick_disarms_witness :
  exists w' cs,
    handle (EvTick 0%nat) Sample.up Sample.pending = Returned (tt, w', cs)
    /\ tickers w' = [false]
    /\ connecting (self w') = false.
Proof.
  destruct (successful_tick_disarms Sample.up Sample.pending
              (NewClient (Some Sample.options)) 0%nat
              eq_refl eq_refl eq_refl eq_refl)
    as (w' & cs & Hrun & Hts & Hg & _).
  exists w', cs. repeat split; assumption.
Defined.

(** ** Subscription restoration over a history *)

(** X13. The first connect of a constructed client always subscribes:
    whatever persistence is configured and whatever session the broker
    reports, the connect callback that follows [Start] issues one
    [Subscribe] per topic the server lists for the configured prefix, in
    order, at the configured QoS. *)
Theorem first_connect_always_subscribes env config m cs0 o a tr tr' ts :
  CreateMQTTClient env config = Returned (m, cs0) ->
  optionsOf m = Some o ->
  exists w1 cs1 w2 cs2,
    handle (EvStart a) tr {| self := m; tickers := ts |} = Returned (tt, w1, cs1)
    /\ handle EvOnConnect tr' w1 = Returned (tt, w2, cs2)
    /\ subscribeCalls cs2
       = map (fun t => (Path t, SubscriptionQos config))
             (GetTopics a (Prefix config)).
Proof.
  intros Hcreate Hopts.
  destruct (CreateMQTTClient_wired env config m cs0 o Hcreate Hopts)
    as (Hc & Hon & Hlost & _ & Hdisc).
  destruct (CreateMQTTClient_fields env config m cs0 Hcreate)
    as (_ & _ & Hpfx & _ & _ & _ & _ & _ & _ & _ & _ & _ & Hqos & _).
  destruct (Start_ready tr {| self := m; tickers := ts |}
              (NewClient (Some o)) o a Hc eq_refl Hon Hlost)
    as (w1 & cs1 & Hstart & _ & Hc1 & Ha1 & Ht1 & Hd1 & _ & Hp1 & Hq1 & _).
  exists w1, cs1. do 2 eexists. split; [exact Hstart|].
  split; [apply (handle_OnConnect tr' w1 _ o a _ Hc1 eq_refl Hon Ha1 Ht1)|].
  rewrite Hd1, Hp1, Hq1. cbn [self]. rewrite Hdisc, Hpfx, Hqos.
  cbn [negb orb]. unfold subscribeCalls. rewrite omap_app. cbn [omap list_omap isSubscribe app].
  apply loopTrace_subscribeCalls.
Qed.

Lemma first_connect_always_subscribes_witness :
  exists w1 cs1 w2 cs2,
    handle (EvStart Sample.server) Sample.resumed Sample.fresh
    = Returned (tt, w1, cs1)
    /\ handle EvOnConnect Sample.resumed w1 = Returned (tt, w2, cs2)
    /\ subscribeCalls cs2
       = [("GOST/v1.0/Things", 1);
          ("GOST/v1.0/Datastreams(+)/Observations", 1);
          ("GOST/v1.0/Locations", 1)].
Proof.
  apply (first_connect_always_subscribes Sample.env Sample.config
           Sample.created
           [CSetupLogger false; CNewClient (Some Sample.options)]
           Sample.options Sample.server Sample.resumed Sample.resumed []);
    reflexivity.
Defined.

(** X14. A connect callback with no connection loss since the previous
    connect callback subscribes to every topic again, even with
    persistence on and the session present: [disconnected] is clear then,
    and the handler takes that for a first connect. *)
Theorem connect_without_loss_resubscribes history w tr :
  ready w ->
  lostSinceConnect history (disconnected (self w)) = false ->
  exists w1 cs1 a w2 cs2,
    run history w = Returned (w1, cs1)
    /\ api (self w1) = Some a
    /\ handle EvOnConnect tr w1 = Returned (tt, w2, cs2)
    /\ subscribeCalls cs2
       = map (fun t => (Path t, subscriptionQos (self w1)))
             (GetTopics a (prefix (self w1))).
Proof.
  intros Hready Hclear.
  destruct (run_effect history w Hready)
    as (w1 & cs1 & Hrun & ((c & o & Hc & Ho & Hon & _) & [a Ha] & [t Ht])
        & Hd & _).
  exists w1, cs1, a. do 2 eexists. split; [exact Hrun|]. split; [exact Ha|].
  split; [apply (handle_OnConnect tr w1 c o a t Hc Ho Hon Ha Ht)|].
  rewrite Hd, Hclear. cbn [negb orb].
  unfold subscribeCalls. rewrite omap_app. cbn [omap list_omap isSubscribe app].
  apply loopTrace_subscribeCalls.
Qed.

Lemma connect_without_loss_resubscribes_witness :
  exists w1 cs1 a w2 cs2,
    run [(Sample.resumed, EvOnConnect); (Sample.resumed, EvPublish "t" "m" 0)]
        Sample.reconnected
    = Returned (w1, cs1)
    /\ api (self w1) = Some a
    /\ handle EvOnConnect Sample.resumed w1 = Returned (tt, w2, cs2)
    /\ subscribeCalls cs2
       = map (fun t => (Path t, subscriptionQos (self w1)))
             (GetTopics a (prefix (self w1))).
Proof.
  apply (connect_without_loss_resubscribes
           [(Sample.resumed, EvOnConnect); (Sample.resumed, EvPublish "t" "m" 0)]
           Sample.reconnected Sample.resumed).
  - split; [exists (NewClient (Some Sample.options)), Sample.options;
            repeat split; reflexivity|].
    split; eexists; reflexivity.
  - reflexivity.
Defined.

(** ** Calls that need no [Start] *)

(** X15. [Publish] and [Stop] work on every client [CreateMQTTClient]
    returns, started or not: neither panics, neither changes the client,
    [Publish] makes its one publish call and [Stop] its one disconnect
    call with a 500 ms quiesce. *)
Theorem Publish_and_Stop_need_no_Start env config m cs0 tr ts topic message qos :
  CreateMQTTClient env config = Returned (m, cs0) ->
  Publish topic message qos tr {| self := m; tickers := ts |}
  = Returned (tt, {| self := m; tickers := ts |},
              [CPublish topic qos false message; CTokenWait])
  /\ Stop tr {| self := m; tickers := ts |}
     = Returned (tt, {| self := m; tickers := ts |}, [CDisconnect 500]).
Proof.
  intros Hcreate.
  destruct (CreateMQTTClient_returned env config m cs0 Hcreate)
    as (_ & _ & opts & err & _ & Hclient).
  split.
  - apply (Publish_trace tr {| self := m; tickers := ts |} (NewClient opts)).
    exact Hclient.
  - apply (Stop_trace tr {| self := m; tickers := ts |} (NewClient opts)).
    exact Hclient.
Qed.

Lemma Publish_and_Stop_need_no_Start_witness :
  Publish "GOST/v1.0/Things" "{}" 1 Sample.down Sample.fresh
  = Returned (tt, Sample.fresh,
              [CPublish "GOST/v1.0/Things" 1 false "{}"; CTokenWait])
  /\ Stop Sample.down Sample.fresh
     = Returned (tt, Sample.fresh, [CDisconnect 500]).
Proof.
  apply (Publish_and_Stop_need_no_Start Sample.env Sample.config
           Sample.created
           [CSetupLogger false; CNewClient (Some Sample.options)]).
  reflexivity.
Defined.
